(** * LowestPrice-BE: the product repository and its controller

    A shallow embedding of [src/product/product.repository.ts] and of the
    cursor coercion of [src/product/product.controller.ts].

    The repository talks to the database through a Prisma client.  The client
    is modelled as the tables it reads, every repository method as a
    computation that reads those tables, records each query it issues and
    either returns or throws one of the three domain exceptions. *)

From Stdlib Require Import ZArith List String Ascii Bool Lia.
From Stdlib Require Import Sorting.Sorted Sorting.Permutation.
Import ListNotations.

Local Open Scope string_scope.
Local Open Scope Z_scope.

Local Set Warnings "-register-all".

(** ** The tables behind the Prisma client

    The Prisma schema is not part of the sources at hand.  The fields are the
    ones the repository selects or filters on; identifiers, prices, rates and
    timestamps are integers, a nullable column is an [option]. *)

Record Category := {
  categoryId : Z;
  categoryName : string
}.

Record Product := {
  productId : Z;
  realId : string;
  coupangItemId : string;
  coupangVendorId : string;
  productName : string;
  productImage : string;
  isOutOfStock : bool;
  originalPrice : Z;
  currentPrice : Z;
  discountRate : option Z;
  cardDiscount : option Z;
  productUrl : string;
  productPartnersUrl : string;
  createdAt : Z;
  updatedAt : Z
}.

(** The join rows of the many-to-many relation Product / Category. *)
Record ProductCategory := {
  pc_ProductId : Z;
  pc_CategoryId : Z
}.

(** A notification subscription: a user paired with a product. *)
Record UserProduct := {
  userProductId : Z;
  UserId : Z;
  ProductId : Z
}.

Record PrismaClient := {
  product : list Product;
  category : list Category;
  productCategory : list ProductCategory;
  userProduct : list UserProduct
}.

(** ** JavaScript values reaching the repository

    [isOutOfStock] is declared [boolean], but the controller hands a raw query
    string to the service, so the argument is kept as a JavaScript value. *)

Inductive JsValue :=
| JUndefined
| JNull
| JBoolean (b : bool)
| JNumber (n : Z)
| JString (s : string).

(** [v === false] *)
Definition strict_eq_false (v : JsValue) : bool :=
  match v with
  | JBoolean false => true
  | _ => false
  end.

(** ** Query arguments

    A [where] object is the list of its keys; [W_object []] is [{}]. *)

Inductive WhereInput :=
| W_isOutOfStock (b : bool)                  (* isOutOfStock: b *)
| W_discountRate (v : option Z)              (* discountRate: v, [None] is null *)
| W_ProductCategory_some (name : string)     (* ProductCategory: { some: { Category: { categoryName } } } *)
| W_AND (ws : list WhereInput)               (* AND: [...] *)
| W_NOT (w : WhereInput)                     (* NOT: {...} *)
| W_object (fields : list WhereInput).       (* { k1: ..., k2: ... } *)

Inductive SortField := By_discountRate | By_currentPrice.
Inductive SortOrder := asc | desc.

Record FindManyArgs := {
  where_ : WhereInput;
  orderBy : option (SortField * SortOrder);
  take : option nat
}.

(** ** Selections

    Every [findMany] of the repository uses the same [select]; [findUnique]
    of [getProductDetail] selects three more columns. *)

Record CategoryRef := {
  ref_categoryId : Z;
  ref_categoryName : string
}.

Module ListItem.
Record t := {
  productId : Z;
  coupangItemId : string;
  coupangVendorId : string;
  productName : string;
  productImage : string;
  isOutOfStock : bool;
  originalPrice : Z;
  currentPrice : Z;
  discountRate : option Z;
  cardDiscount : option Z;
  createdAt : Z;
  updatedAt : Z;
  ProductCategory : list CategoryRef
}.
End ListItem.

Module DetailItem.
Record t := {
  productId : Z;
  realId : string;
  coupangItemId : string;
  coupangVendorId : string;
  productName : string;
  productImage : string;
  isOutOfStock : bool;
  originalPrice : Z;
  currentPrice : Z;
  discountRate : option Z;
  cardDiscount : option Z;
  productUrl : string;
  productPartnersUrl : string;
  createdAt : Z;
  updatedAt : Z;
  ProductCategory : list CategoryRef
}.
End DetailItem.

(** ** The store's evaluation of a query

    Comparisons follow SQL: a NULL column compared with a constant is unknown,
    [NOT] and [AND] are Kleene's, and a row is selected when the predicate is
    true. *)

Definition tv := option bool.

Definition tv_and (a b : tv) : tv :=
  match a, b with
  | Some false, _ => Some false
  | _, Some false => Some false
  | Some true, Some true => Some true
  | _, _ => None
  end.

Definition tv_not (a : tv) : tv := option_map negb a.

Definition tv_true (a : tv) : bool :=
  match a with
  | Some true => true
  | _ => false
  end.

(** The categories a product is joined to, in join-table order. *)
Definition categoriesOf (db : PrismaClient) (p : Product) : list Category :=
  flat_map
    (fun pc =>
       if pc_ProductId pc =? productId p
       then filter (fun c => categoryId c =? pc_CategoryId pc) (category db)
       else [])
    (productCategory db).

Fixpoint matches (db : PrismaClient) (p : Product) (w : WhereInput) : tv :=
  match w with
  | W_isOutOfStock b => Some (Bool.eqb (isOutOfStock p) b)
  | W_discountRate None =>
      Some (match discountRate p with None => true | Some _ => false end)
  | W_discountRate (Some v) =>
      match discountRate p with
      | None => None
      | Some d => Some (d =? v)
      end
  | W_ProductCategory_some name =>
      Some (existsb (fun c => String.eqb (categoryName c) name) (categoriesOf db p))
  | W_AND ws => fold_right (fun w' acc => tv_and (matches db p w') acc) (Some true) ws
  | W_NOT w' => tv_not (matches db p w')
  | W_object fields =>
      fold_right (fun w' acc => tv_and (matches db p w') acc) (Some true) fields
  end.

(** Sort keys; NULL sorts below every value. *)
Definition sortKey (f : SortField) (p : Product) : option Z :=
  match f with
  | By_discountRate => discountRate p
  | By_currentPrice => Some (currentPrice p)
  end.

Definition key_leb (a b : option Z) : bool :=
  match a, b with
  | None, _ => true
  | Some _, None => false
  | Some x, Some y => x <=? y
  end.

(** [before f o p q]: [p] may stand before [q] under [orderBy: { f: o }]. *)
Definition before (f : SortField) (o : SortOrder) (p q : Product) : bool :=
  match o with
  | asc => key_leb (sortKey f p) (sortKey f q)
  | desc => key_leb (sortKey f q) (sortKey f p)
  end.

(** Stable insertion sort: rows with equal keys keep their table order. *)
Fixpoint insert_by (le : Product -> Product -> bool) (p : Product)
  (l : list Product) : list Product :=
  match l with
  | [] => [p]
  | q :: l' => if le p q then p :: q :: l' else q :: insert_by le p l'
  end.

Fixpoint sort_by (le : Product -> Product -> bool) (l : list Product)
  : list Product :=
  match l with
  | [] => []
  | p :: l' => insert_by le p (sort_by le l')
  end.

Definition applyOrderBy (o : option (SortField * SortOrder))
  (l : list Product) : list Product :=
  match o with
  | None => l
  | Some (f, d) => sort_by (before f d) l
  end.

Definition applyTake (n : option nat) (l : list Product) : list Product :=
  match n with
  | None => l
  | Some k => firstn k l
  end.

Definition categoryRefs (db : PrismaClient) (p : Product) : list CategoryRef :=
  map (fun c => {| ref_categoryId := categoryId c;
                   ref_categoryName := categoryName c |})
      (categoriesOf db p).

Definition selectListItem (db : PrismaClient) (p : Product) : ListItem.t :=
  {| ListItem.productId := productId p;
     ListItem.coupangItemId := coupangItemId p;
     ListItem.coupangVendorId := coupangVendorId p;
     ListItem.productName := productName p;
     ListItem.productImage := productImage p;
     ListItem.isOutOfStock := isOutOfStock p;
     ListItem.originalPrice := originalPrice p;
     ListItem.currentPrice := currentPrice p;
     ListItem.discountRate := discountRate p;
     ListItem.cardDiscount := cardDiscount p;
     ListItem.createdAt := createdAt p;
     ListItem.updatedAt := updatedAt p;
     ListItem.ProductCategory := categoryRefs db p |}.

Definition selectDetailItem (db : PrismaClient) (p : Product) : DetailItem.t :=
  {| DetailItem.productId := productId p;
     DetailItem.realId := realId p;
     DetailItem.coupangItemId := coupangItemId p;
     DetailItem.coupangVendorId := coupangVendorId p;
     DetailItem.productName := productName p;
     DetailItem.productImage := productImage p;
     DetailItem.isOutOfStock := isOutOfStock p;
     DetailItem.originalPrice := originalPrice p;
     DetailItem.currentPrice := currentPrice p;
     DetailItem.discountRate := discountRate p;
     DetailItem.cardDiscount := cardDiscount p;
     DetailItem.productUrl := productUrl p;
     DetailItem.productPartnersUrl := productPartnersUrl p;
     DetailItem.createdAt := createdAt p;
     DetailItem.updatedAt := updatedAt p;
     DetailItem.ProductCategory := categoryRefs db p |}.

(** The rows a [findMany] selects, before projection. *)
Definition findManyRows (db : PrismaClient) (a : FindManyArgs) : list Product :=
  applyTake (take a)
    (applyOrderBy (orderBy a)
       (filter (fun p => tv_true (matches db p (where_ a))) (product db))).

(** ** Asynchronous repository code

    An [Async A] reads the client, lists the queries it sent in order, and
    ends with a value or an exception. *)

Inductive Exception :=
| NotFoundCategoryException
| NotFoundCategoryFilterException
| NotFoundProductException.

Inductive Query :=
| Q_category_findUnique (name : string)
| Q_product_findMany (a : FindManyArgs)
| Q_product_findUnique (id : Z)
| Q_userProduct_findFirst (userId productId : Z).

Inductive Outcome (A : Type) :=
| Returns (a : A)
| Throws (e : Exception).
Arguments Returns {A} a.
Arguments Throws {A} e.

Definition Async (A : Type) : Type := PrismaClient -> list Query * Outcome A.

Definition ret {A} (a : A) : Async A := fun _ => ([], Returns a).

Definition throw {A} (e : Exception) : Async A := fun _ => ([], Throws e).

Definition bind {A B} (m : Async A) (k : A -> Async B) : Async B :=
  fun db =>
    match m db with
    | (qs, Returns a) => let '(qs', r) := k a db in ((qs ++ qs')%list, r)
    | (qs, Throws e) => (qs, Throws e)
    end.

Notation "'let*' x ':=' 'await' m 'in' k" := (bind m (fun x => k))
  (at level 10, x name, m at level 100, k at level 200).

Definition queries {A} (r : list Query * Outcome A) : list Query := fst r.
Definition outcome {A} (r : list Query * Outcome A) : Outcome A := snd r.

(** [prisma.category.findUnique({ where: { categoryName } })] *)
Definition category_findUnique (name : string) : Async (option Category) :=
  fun db =>
    ([Q_category_findUnique name],
     Returns (find (fun c => String.eqb (categoryName c) name) (category db))).

(** [prisma.product.findMany({ where, orderBy, take, select })] *)
Definition product_findMany (a : FindManyArgs) : Async (list ListItem.t) :=
  fun db =>
    ([Q_product_findMany a], Returns (map (selectListItem db) (findManyRows db a))).

(** [prisma.product.findUnique({ where: { productId }, select })] *)
Definition product_findUnique (id : Z) : Async (option DetailItem.t) :=
  fun db =>
    ([Q_product_findUnique id],
     Returns (option_map (selectDetailItem db)
                (find (fun p => productId p =? id) (product db)))).

(** [prisma.userProduct.findFirst({ where: { UserId, ProductId } })] *)
Definition userProduct_findFirst (userId productId : Z)
  : Async (option UserProduct) :=
  fun db =>
    ([Q_userProduct_findFirst userId productId],
     Returns (find (fun r => (UserId r =? userId) && (ProductId r =? productId))
                (userProduct db))).

(** ** ProductRepository *)

Module ProductRepository.

(** The [where] object of [getAllProducts]: [{}], to which
    [isOutOfStock = false] is assigned when the argument is [false]. *)
Definition whereCondition_all (isOutOfStock : JsValue) : WhereInput :=
  W_object (if strict_eq_false isOutOfStock then [W_isOutOfStock false] else []).

Definition getAllProducts (userId : option Z) (isOutOfStock : JsValue)
  : Async (list ListItem.t) :=
  let whereCondition := whereCondition_all isOutOfStock in
  let* products := await
    product_findMany {| where_ := whereCondition; orderBy := None; take := None |} in
  ret products.

Definition top10Where : WhereInput :=
  W_object
    [W_AND [W_object [W_NOT (W_object [W_discountRate (Some 0)])];
            W_object [W_NOT (W_object [W_discountRate None])];
            W_object [W_isOutOfStock false]]].

Definition getTop10Products (userId : option Z) : Async (list ListItem.t) :=
  let* products := await
    product_findMany {| where_ := top10Where;
                        orderBy := Some (By_discountRate, desc);
                        take := Some 10%nat |} in
  if (List.length products =? 0)%nat then throw NotFoundProductException
  else ret products.

Definition baseCondition (categoryName : string) : WhereInput :=
  W_object [W_ProductCategory_some categoryName;
            W_NOT (W_object [W_discountRate None])].

Definition additionalCondition (isOutOfStock : JsValue) : list WhereInput :=
  if strict_eq_false isOutOfStock then [W_object [W_isOutOfStock false]] else [].

Definition whereCondition (categoryName : string) (isOutOfStock : JsValue)
  : WhereInput :=
  W_object [W_AND (baseCondition categoryName :: additionalCondition isOutOfStock)].

Definition getProductsByCategory (categoryName : string) (userId : option Z)
  (isOutOfStock : JsValue) : Async (list ListItem.t) :=
  let* categoryExists := await category_findUnique categoryName in
  match categoryExists with
  | None => throw NotFoundCategoryException
  | Some _ =>
      let* products := await
        product_findMany {| where_ := whereCondition categoryName isOutOfStock;
                            orderBy := None; take := None |} in
      if (List.length products =? 0)%nat then throw NotFoundProductException
      else ret products
  end.

(** The [switch] over the filter token. *)
Definition orderByOfFilter (filter : string) : option (SortField * SortOrder) :=
  if String.eqb filter "discountRate_desc" then Some (By_discountRate, desc)
  else if String.eqb filter "price_asc" then Some (By_currentPrice, asc)
  else if String.eqb filter "price_desc" then Some (By_currentPrice, desc)
  else None.

Definition getProductsByCategoryAndFilter (categoryName filter : string)
  (userId : option Z) (isOutOfStock : JsValue) : Async (list ListItem.t) :=
  let* categoryExists := await category_findUnique categoryName in
  match categoryExists with
  | None => throw NotFoundCategoryException
  | Some _ =>
      match orderByOfFilter filter with
      | None => throw NotFoundCategoryFilterException
      | Some orderBy =>
          let* products := await
            product_findMany {| where_ := whereCondition categoryName isOutOfStock;
                                orderBy := Some orderBy; take := None |} in
          if (List.length products =? 0)%nat then throw NotFoundProductException
          else ret products
      end
  end.

Definition getProductDetail (productId : Z) (userId : option Z)
  : Async DetailItem.t :=
  let* product := await product_findUnique productId in
  match product with
  | None => throw NotFoundProductException
  | Some product => ret product
  end.

Definition checkNotification (productId userId : Z) : Async (option UserProduct) :=
  userProduct_findFirst userId productId.

End ProductRepository.

(** ** JavaScript's [Number(string)]

    The controller converts the [lastId] query string with [Number].  What
    follows is ECMAScript's StringToNumber on strings of code units below
    U+0100 (one [ascii] per code unit), with the result rounded to a binary64
    double.  A finite double is kept as [m * 2^e] with [m] odd, zero as
    [Finite 0 0]; the sign of zero is dropped. *)

Inductive JsNumber :=
| NaN
| Infinity (negative : bool)
| Finite (m e : Z).

Definition isStrWhiteSpaceChar (c : ascii) : bool :=
  let n := Z.of_nat (nat_of_ascii c) in
  (n =? 9) || (n =? 10) || (n =? 11) || (n =? 12) || (n =? 13)
  || (n =? 32) || (n =? 160).

Fixpoint trimStart (s : string) : string :=
  match s with
  | EmptyString => EmptyString
  | String c s' => if isStrWhiteSpaceChar c then trimStart s' else s
  end.

Fixpoint trimEnd (s : string) : string :=
  match s with
  | EmptyString => EmptyString
  | String c s' =>
      match trimEnd s' with
      | EmptyString => if isStrWhiteSpaceChar c then EmptyString else String c EmptyString
      | t => String c t
      end
  end.

(** The value of a digit in a radix, [None] when the character is no digit
    of that radix. *)
Definition digitOf (radix : Z) (c : ascii) : option Z :=
  let n := Z.of_nat (nat_of_ascii c) in
  let v :=
    if (48 <=? n) && (n <=? 57) then n - 48
    else if (97 <=? n) && (n <=? 102) then n - 87
    else if (65 <=? n) && (n <=? 70) then n - 55
    else radix in
  if v <? radix then Some v else None.

(** Reads the longest run of digits: its value so far, how many digits were
    read, and the rest of the string. *)
Fixpoint readDigits (radix : Z) (acc : Z) (count : Z) (s : string)
  : Z * Z * string :=
  match s with
  | EmptyString => (acc, count, s)
  | String c s' =>
      match digitOf radix c with
      | Some d => readDigits radix (acc * radix + d) (count + 1) s'
      | None => (acc, count, s)
      end
  end.

(** Rounding to nearest, ties to even, of [a / b] for [0 <= a] and [0 < b]. *)
Definition roundHalfEven (a b : Z) : Z :=
  let q := a / b in
  let r := a mod b in
  if 2 * r <? b then q
  else if b <? 2 * r then q + 1
  else if Z.even q then q else q + 1.

Fixpoint oddPart (p : positive) (e : Z) : positive * Z :=
  match p with
  | xO p' => oddPart p' (e + 1)
  | _ => (p, e)
  end.

Definition normalize (m e : Z) : Z * Z :=
  match m with
  | Zpos p => let '(p', e') := oddPart p e in (Zpos p', e')
  | _ => (0, 0)
  end.

(** The binary64 double nearest to [n / d], for [0 < n] and [0 < d]. *)
Definition roundToDouble (negative : bool) (n d : Z) : JsNumber :=
  let e0 := Z.log2 n - Z.log2 d in
  let floorLog :=
    if (if 0 <=? e0 then d * 2 ^ e0 <=? n else d <=? n * 2 ^ (- e0))
    then e0 else e0 - 1 in
  let q := Z.max floorLog (-1022) - 52 in
  let m := if 0 <=? q then roundHalfEven n (d * 2 ^ q)
           else roundHalfEven (n * 2 ^ (- q)) d in
  if m =? 0 then Finite 0 0
  else if (0 <=? q) && (2 ^ 1024 <=? m * 2 ^ q) then Infinity negative
  else let '(m', e') := normalize m q in
       Finite (if negative then - m' else m') e'.

Definition ofDecimal (negative : bool) (mantissa exponent : Z) : JsNumber :=
  if mantissa =? 0 then Finite 0 0
  else if 0 <=? exponent then roundToDouble negative (mantissa * 10 ^ exponent) 1
  else roundToDouble negative mantissa (10 ^ (- exponent)).

(** ExponentPart_opt followed by the end of the string. *)
Definition readExponent (s : string) : option Z :=
  match s with
  | EmptyString => Some 0
  | String c s' =>
      if (Ascii.eqb c "e" || Ascii.eqb c "E")%bool then
        let '(negative, s'') :=
          match s' with
          | String "+" t => (false, t)
          | String "-" t => (true, t)
          | _ => (false, s')
          end in
        match readDigits 10 0 0 s'' with
        | (v, count, EmptyString) =>
            if 0 <? count then Some (if negative then - v else v) else None
        | _ => None
        end
      else None
  end.

(** StrUnsignedDecimalLiteral *)
Definition unsignedDecimal (negative : bool) (s : string) : JsNumber :=
  if String.eqb s "Infinity" then Infinity negative
  else
    let '(ip, ipCount, r1) := readDigits 10 0 0 s in
    let '(mantissa, fpCount, r2) :=
      match r1 with
      | String "." t => readDigits 10 ip 0 t
      | _ => (ip, 0, r1)
      end in
    if (ipCount =? 0) && (fpCount =? 0) then NaN
    else
      match readExponent r2 with
      | Some ex => ofDecimal negative mantissa (ex - fpCount)
      | None => NaN
      end.

(** NonDecimalIntegerLiteral: digits of the radix up to the end. *)
Definition nonDecimal (radix : Z) (s : string) : JsNumber :=
  match readDigits radix 0 0 s with
  | (v, count, EmptyString) =>
      if count =? 0 then NaN
      else if v =? 0 then Finite 0 0
      else roundToDouble false v 1
  | _ => NaN
  end.

(** The radix announced by the second character of [0x], [0o], [0b]. *)
Definition radixOfPrefix (c : ascii) : option Z :=
  if (Ascii.eqb c "x" || Ascii.eqb c "X")%bool then Some 16
  else if (Ascii.eqb c "o" || Ascii.eqb c "O")%bool then Some 8
  else if (Ascii.eqb c "b" || Ascii.eqb c "B")%bool then Some 2
  else None.

Definition nonDecimalPrefix (s : string) : option (Z * string) :=
  match s with
  | String c (String c' t) =>
      if Ascii.eqb c "0"
      then option_map (fun radix => (radix, t)) (radixOfPrefix c')
      else None
  | _ => None
  end.

Definition StringToNumber (s : string) : JsNumber :=
  match trimEnd (trimStart s) with
  | EmptyString => Finite 0 0
  | String c t =>
      if Ascii.eqb c "+" then unsignedDecimal false t
      else if Ascii.eqb c "-" then unsignedDecimal true t
      else
        match nonDecimalPrefix (String c t) with
        | Some (radix, t') => nonDecimal radix t'
        | None => unsignedDecimal false (String c t)
        end
  end.

(** [Number(v)] for a query parameter: a string, or [undefined] when the
    parameter is absent. *)
Definition Number (v : option string) : JsNumber :=
  match v with
  | None => NaN
  | Some s => StringToNumber s
  end.

(** ToBoolean on a number. *)
Definition truthy (n : JsNumber) : bool :=
  match n with
  | NaN => false
  | Finite 0 _ => false
  | _ => true
  end.

Definition isInteger (n : JsNumber) : bool :=
  match n with
  | Finite _ e => 0 <=? e
  | _ => false
  end.

(** ** ProductController: the cursor coercion

    [const lastId = Number(lastIdString) ? Number(lastIdString) : null;] *)

Module ProductController.

Definition lastId (lastIdString : option string) : option JsNumber :=
  if truthy (Number lastIdString) then Some (Number lastIdString) else None.

End ProductController.

(** ** ProductService: the category listing with a cursor

    Modelled from the spec: [ProductService.getProductsByCategory], which the
    controller calls with [(categoryName, userId, lastId, isOutOfStock)], is
    not among the sources; the repository method of the same name takes no
    cursor.  The spec's [listByCategory] validates the category first, builds
    the predicate of the condition composer, constrains the result to
    identifiers strictly after the cursor when one is present, and fails with
    NotFoundProduct when the result is empty. *)

Module ProductService.

Definition afterCursor (cursor : option Z) (products : list ListItem.t)
  : list ListItem.t :=
  match cursor with
  | None => products
  | Some c => filter (fun p => c <? ListItem.productId p) products
  end.

Definition listByCategory (categoryName : string) (userId : option Z)
  (cursor : option Z) (includeOutOfStock : JsValue) : Async (list ListItem.t) :=
  let* categoryExists := await category_findUnique categoryName in
  match categoryExists with
  | None => throw NotFoundCategoryException
  | Some _ =>
      let* products := await
        product_findMany
          {| where_ := ProductRepository.whereCondition categoryName includeOutOfStock;
             orderBy := None; take := None |} in
      let page := afterCursor cursor products in
      if (List.length page =? 0)%nat then throw NotFoundProductException
      else ret page
  end.

End ProductService.

(** * The vocabulary of the statements *)

Import ProductRepository.

(** The arguments of the [findMany] of the category listings. *)
Definition categoryArgs (name : string) (v : JsValue)
  (o : option (SortField * SortOrder)) : FindManyArgs :=
  {| where_ := whereCondition name v; orderBy := o; take := None |}.

(** The empty-result check: [products.length === 0] throws. *)
Definition orEmpty (items : list ListItem.t) : Outcome (list ListItem.t) :=
  if (List.length items =? 0)%nat then Throws NotFoundProductException
  else Returns items.

(** The [findMany] arguments of [getTop10Products]. *)
Definition top10Args : FindManyArgs :=
  {| where_ := top10Where;
     orderBy := Some (By_discountRate, desc);
     take := Some 10%nat |}.

(** An item stands before another by discount rate, descending. *)
Definition rateDescending (a b : ListItem.t) : Prop :=
  exists x y, ListItem.discountRate a = Some x /\ ListItem.discountRate b = Some y
              /\ y <= x.

(** Whether a [where] object carries [isOutOfStock: false] as one of its
    conjuncts. *)
Fixpoint hasStockClause (w : WhereInput) : bool :=
  match w with
  | W_isOutOfStock false => true
  | W_AND ws => existsb hasStockClause ws
  | W_object fields => existsb hasStockClause fields
  | _ => false
  end.

(** The [where] arguments of the [product.findMany] queries of a run. *)
Definition findManyWheres (qs : list Query) : list WhereInput :=
  flat_map (fun q => match q with
                     | Q_product_findMany a => [where_ a]
                     | _ => []
                     end) qs.

(** The JavaScript value a caller of [checkNotification] receives: [findFirst]
    resolves to the row object or to [null]. *)
Inductive JsResult :=
| R_null
| R_boolean (b : bool)
| R_row (r : UserProduct).

Definition jsOfFindFirst (r : option UserProduct) : JsResult :=
  match r with
  | None => R_null
  | Some row => R_row row
  end.

Definition pairs (userId productId : Z) (row : UserProduct) : Prop :=
  UserId row = userId /\ ProductId row = productId.

(** The value of a string made of decimal digits only. *)
Fixpoint decimalValue (acc : Z) (s : string) : option Z :=
  match s with
  | EmptyString => Some acc
  | String c s' =>
      match digitOf 10 c with
      | Some d => decimalValue (acc * 10 + d) s'
      | None => None
      end
  end.

(** ** Fixtures: the stores of the spec's scenarios *)

Definition mkProduct (id : Z) (outOfStock : bool) (price : Z) (rate : option Z)
  : Product :=
  {| productId := id; realId := ""; coupangItemId := ""; coupangVendorId := "";
     productName := ""; productImage := ""; isOutOfStock := outOfStock;
     originalPrice := price; currentPrice := price; discountRate := rate;
     cardDiscount := None; productUrl := ""; productPartnersUrl := "";
     createdAt := 0; updatedAt := 0 |}.

(** Scenario A: category "shoes" with product 1 (rate 10) and product 2 (rate
    null), both in stock. *)
Definition shoesStore : PrismaClient :=
  {| product := [mkProduct 1 false 100 (Some 10); mkProduct 2 false 200 None];
     category := [{| categoryId := 1; categoryName := "shoes" |}];
     productCategory := [{| pc_ProductId := 1; pc_CategoryId := 1 |};
                         {| pc_ProductId := 2; pc_CategoryId := 1 |}];
     userProduct := [{| userProductId := 1; UserId := 7; ProductId := 1 |}] |}.

(** A store with an out-of-stock product in category "shoes". *)
Definition stockStore : PrismaClient :=
  {| product := [mkProduct 1 false 100 (Some 10); mkProduct 3 true 50 (Some 5)];
     category := [{| categoryId := 1; categoryName := "shoes" |}];
     productCategory := [{| pc_ProductId := 1; pc_CategoryId := 1 |};
                         {| pc_ProductId := 3; pc_CategoryId := 1 |}];
     userProduct := [] |}.

(** Scenario C: rates 20, 0 and null, all in stock. *)
Definition ratesStore : PrismaClient :=
  {| product := [mkProduct 1 false 100 (Some 20);
                 mkProduct 2 false 100 (Some 0);
                 mkProduct 3 false 100 None];
     category := []; productCategory := []; userProduct := [] |}.

(** A store whose only category has no product. *)
Definition emptyShoesStore : PrismaClient :=
  {| product := [];
     category := [{| categoryId := 1; categoryName := "shoes" |}];
     productCategory := [];
     userProduct := [] |}.

(** ** Further vocabulary: what the listings select *)

(** A row belongs to the category of that name. *)
Definition inCategory (db : PrismaClient) (name : string) (p : Product) : bool :=
  existsb (fun c => String.eqb (categoryName c) name) (categoriesOf db p).

(** A row is listed by the category listings: it belongs to the category, has
    a discount rate, and is in stock when the argument is [false]. *)
Definition listed (db : PrismaClient) (name : string) (v : JsValue) (p : Product)
  : bool :=
  inCategory db name p
  && match discountRate p with Some _ => true | None => false end
  && (negb (strict_eq_false v) || negb (isOutOfStock p)).

(** A row qualifies for the top-10 listing. *)
Definition qualifies (p : Product) : bool :=
  match discountRate p with
  | Some d => negb (d =? 0) && negb (isOutOfStock p)
  | None => false
  end.

(** The order of two items under [orderBy: { f: o }]. *)
Definition itemBefore (o : SortField * SortOrder) (a b : ListItem.t) : Prop :=
  match o with
  | (By_currentPrice, asc) => ListItem.currentPrice a <= ListItem.currentPrice b
  | (By_currentPrice, desc) => ListItem.currentPrice b <= ListItem.currentPrice a
  | (By_discountRate, desc) => rateDescending a b
  | (By_discountRate, asc) => rateDescending b a
  end.

(** A string of white space only. *)
Fixpoint allWhiteSpace (s : string) : bool :=
  match s with
  | EmptyString => true
  | String c s' => isStrWhiteSpaceChar c && allWhiteSpace s'
  end.

(** A store with a product of two categories and a tie of prices. *)
Definition mixedStore : PrismaClient :=
  {| product := [mkProduct 1 false 300 (Some 10);
                 mkProduct 2 true 100 (Some 30);
                 mkProduct 3 false 100 (Some 20);
                 mkProduct 4 false 50 None];
     category := [{| categoryId := 1; categoryName := "shoes" |};
                  {| categoryId := 2; categoryName := "bags" |}];
     productCategory := [{| pc_ProductId := 1; pc_CategoryId := 1 |};
                         {| pc_ProductId := 2; pc_CategoryId := 1 |};
                         {| pc_ProductId := 3; pc_CategoryId := 1 |};
                         {| pc_ProductId := 3; pc_CategoryId := 2 |};
                         {| pc_ProductId := 4; pc_CategoryId := 1 |}];
     userProduct := [] |}.

(** * Properties *)

(** ** Facts about the store's evaluation *)

Lemma insert_by_In le p q l : In q (insert_by le p l) <-> q = p \/ In q l.
Proof.
  induction l as [|x l IH]; simpl.
  - intuition congruence.
  - destruct (le p x); simpl; rewrite ?IH; intuition congruence.
Qed.

Lemma sort_by_In le q l : In q (sort_by le l) <-> In q l.
Proof.
  induction l as [|x l IH]; simpl; [tauto|].
  rewrite insert_by_In, IH. intuition congruence.
Qed.

Lemma applyOrderBy_In o q l : In q (applyOrderBy o l) <-> In q l.
Proof.
  destruct o as [[f d]|]; simpl; [apply sort_by_In | tauto].
Qed.

Lemma applyTake_In n q l : In q (applyTake n l) -> In q l.
Proof.
  destruct n as [k|]; simpl; [|tauto].
  intros H. rewrite <- (firstn_skipn k l). apply in_or_app. now left.
Qed.

Lemma tv_and_true_r a : tv_and a (Some true) = a.
Proof. destruct a as [[|]|]; reflexivity. Qed.

(** Every row a [findMany] selects is a row of the table that satisfies the
    [where] predicate. *)
Lemma findManyRows_In db a p :
  In p (findManyRows db a) ->
  In p (product db) /\ tv_true (matches db p (where_ a)) = true.
Proof.
  unfold findManyRows. intros H.
  apply applyTake_In in H. apply applyOrderBy_In in H.
  apply filter_In in H. exact H.
Qed.

(** Without [take], the selected rows are exactly the matching rows. *)
Lemma findManyRows_all_In db w o p :
  In p (findManyRows db {| where_ := w; orderBy := o; take := None |}) <->
  In p (product db) /\ tv_true (matches db p w) = true.
Proof.
  unfold findManyRows; simpl. rewrite applyOrderBy_In, filter_In. tauto.
Qed.

(** A category lookup finds a row exactly when the table has one of that
    name. *)
Lemma category_find_None db name :
  find (fun c => String.eqb (categoryName c) name) (category db) = None <->
  (forall c, In c (category db) -> categoryName c <> name).
Proof.
  split.
  - intros H c Hc Heq.
    apply (find_none _ _ H) in Hc. simpl in Hc.
    rewrite Heq, String.eqb_refl in Hc. discriminate.
  - intros H. destruct (find _ _) as [c|] eqn:E; [|reflexivity].
    apply find_some in E. destruct E as [Hc He].
    apply String.eqb_eq in He. elim (H c Hc He).
Qed.

Lemma category_find_Some db name :
  (exists c, In c (category db) /\ categoryName c = name) ->
  exists c, find (fun c => String.eqb (categoryName c) name) (category db) = Some c.
Proof.
  intros [c [Hc He]].
  destruct (find _ _) as [c'|] eqn:E; [eauto|].
  apply (find_none _ _ E) in Hc. simpl in Hc.
  rewrite He, String.eqb_refl in Hc. discriminate.
Qed.

(** What the predicate of the category listings says about a row. *)
Lemma whereCondition_true db p name v :
  tv_true (matches db p (ProductRepository.whereCondition name v)) = true <->
  existsb (fun c => String.eqb (categoryName c) name) (categoriesOf db p) = true
  /\ discountRate p <> None
  /\ (v = JBoolean false -> isOutOfStock p = false).
Proof.
  unfold ProductRepository.whereCondition, ProductRepository.baseCondition,
    ProductRepository.additionalCondition.
  destruct (existsb _ _) eqn:Ec;
    destruct (discountRate p) as [d|] eqn:Ed;
    destruct (isOutOfStock p) eqn:Es;
    destruct v as [| |[|]|n|s]; simpl; rewrite ?Ec, ?Ed, ?Es; simpl;
    split; intros H; try discriminate; try reflexivity;
    repeat split; try congruence;
    try (destruct H as [H1 [H2 H3]]; try discriminate; try congruence;
         try (specialize (H3 eq_refl); discriminate)).
Qed.

(** ** The runs of the repository methods, query by query *)

Lemma getAllProducts_run db userId v :
  getAllProducts userId v db =
  let a := {| where_ := whereCondition_all v; orderBy := None; take := None |} in
  ([Q_product_findMany a], Returns (map (selectListItem db) (findManyRows db a))).
Proof. reflexivity. Qed.

Lemma getProductsByCategory_run db name userId v :
  getProductsByCategory name userId v db =
  match find (fun c => String.eqb (categoryName c) name) (category db) with
  | None => ([Q_category_findUnique name], Throws NotFoundCategoryException)
  | Some _ =>
      let a := categoryArgs name v None in
      ([Q_category_findUnique name; Q_product_findMany a],
       orEmpty (map (selectListItem db) (findManyRows db a)))
  end.
Proof.
  unfold getProductsByCategory, bind, category_findUnique, orEmpty.
  destruct (find _ _); [|reflexivity].
  unfold product_findMany, categoryArgs; simpl.
  destruct (List.length _ =? 0)%nat; reflexivity.
Qed.

Lemma getProductsByCategoryAndFilter_run db name filter userId v :
  getProductsByCategoryAndFilter name filter userId v db =
  match find (fun c => String.eqb (categoryName c) name) (category db) with
  | None => ([Q_category_findUnique name], Throws NotFoundCategoryException)
  | Some _ =>
      match orderByOfFilter filter with
      | None => ([Q_category_findUnique name], Throws NotFoundCategoryFilterException)
      | Some o =>
          let a := categoryArgs name v (Some o) in
          ([Q_category_findUnique name; Q_product_findMany a],
           orEmpty (map (selectListItem db) (findManyRows db a)))
      end
  end.
Proof.
  unfold getProductsByCategoryAndFilter, bind, category_findUnique, orEmpty.
  destruct (find _ _); [|reflexivity].
  destruct (orderByOfFilter filter) as [o|]; [|reflexivity].
  unfold product_findMany, categoryArgs; simpl.
  destruct (List.length _ =? 0)%nat; reflexivity.
Qed.

Lemma orEmpty_Returns items ps : orEmpty items = Returns ps -> ps = items /\ items <> [].
Proof.
  unfold orEmpty. destruct items; simpl; intros H; inversion H.
  split; [reflexivity | discriminate].
Qed.

(** Whatever a category listing returns is the projection of the rows its
    [findMany] selected under the category predicate. *)
Lemma category_listing_rows db name filter userId v ps :
  outcome (getProductsByCategory name userId v db) = Returns ps \/
  outcome (getProductsByCategoryAndFilter name filter userId v db) = Returns ps ->
  exists o, ps = map (selectListItem db) (findManyRows db (categoryArgs name v o)).
Proof.
  rewrite getProductsByCategory_run, getProductsByCategoryAndFilter_run.
  destruct (find _ _); simpl.
  - intros [H|H].
    + apply orEmpty_Returns in H. exists None. tauto.
    + destruct (orderByOfFilter filter) as [o|]; simpl in H; [|discriminate].
      apply orEmpty_Returns in H. exists (Some o). tauto.
  - intros [H|H]; discriminate.
Qed.

(** ** C1: products without a discount rate are never listed by category *)

(** C1. A product whose discount rate is null is absent from whatever
    [getProductsByCategory] and [getProductsByCategoryAndFilter] return, for
    every value of the stock-visibility argument. *)
Theorem C1_null_discount_never_listed db name filter userId v p ps :
  discountRate p = None ->
  outcome (getProductsByCategory name userId v db) = Returns ps \/
  outcome (getProductsByCategoryAndFilter name filter userId v db) = Returns ps ->
  ~ In (selectListItem db p) ps.
Proof.
  intros Hnull Hret Hin.
  destruct (category_listing_rows _ _ _ _ _ _ Hret) as [o ->].
  apply in_map_iff in Hin. destruct Hin as [p' [Heq Hp']].
  apply findManyRows_In in Hp'. destruct Hp' as [_ Hm].
  apply whereCondition_true in Hm. destruct Hm as [_ [Hrate _]].
  apply (f_equal ListItem.discountRate) in Heq. simpl in Heq.
  congruence.
Qed.

Lemma C1_witness :
  ~ In (selectListItem shoesStore (mkProduct 2 false 200 None))
       [selectListItem shoesStore (mkProduct 1 false 100 (Some 10))].
Proof.
  apply (C1_null_discount_never_listed shoesStore "shoes" "price_asc" None
           (JBoolean true) (mkProduct 2 false 200 None)).
  - reflexivity.
  - left. reflexivity.
Defined.

(** ** C2: the stock clause is added for [false] and for nothing else *)

Lemma strict_eq_false_iff v : strict_eq_false v = true <-> v = JBoolean false.
Proof.
  destruct v as [| |[|]|n|s]; simpl; split; intros H; congruence.
Qed.

Lemma hasStockClause_all v :
  hasStockClause (whereCondition_all v) = strict_eq_false v.
Proof.
  unfold whereCondition_all. destruct (strict_eq_false v); reflexivity.
Qed.

Lemma hasStockClause_category name v :
  hasStockClause (whereCondition name v) = strict_eq_false v.
Proof.
  unfold whereCondition, additionalCondition.
  destruct (strict_eq_false v); reflexivity.
Qed.

(** C2. In [getAllProducts], [getProductsByCategory] and
    [getProductsByCategoryAndFilter] the [where] object sent to the store
    carries the clause [isOutOfStock: false] if and only if the argument is the
    boolean [false]; for any other value no row is excluded for being out of
    stock: [getAllProducts] selects every row, the category listings every row
    that satisfies the base condition. *)
Theorem C2_stock_clause_iff_false db name filter userId v :
  (forall w,
      In w (findManyWheres (queries (getAllProducts userId v db))) \/
      In w (findManyWheres (queries (getProductsByCategory name userId v db))) \/
      In w (findManyWheres
              (queries (getProductsByCategoryAndFilter name filter userId v db))) ->
      (hasStockClause w = true <-> v = JBoolean false))
  /\ (v <> JBoolean false ->
      forall p, In p (product db) ->
        In p (findManyRows db {| where_ := whereCondition_all v;
                                 orderBy := None; take := None |})
        /\ (tv_true (matches db p (baseCondition name)) = true ->
            forall o, In p (findManyRows db (categoryArgs name v o)))).
Proof.
  split.
  - intros w. rewrite getAllProducts_run, getProductsByCategory_run,
      getProductsByCategoryAndFilter_run.
    rewrite <- strict_eq_false_iff.
    destruct (find _ _); simpl.
    + destruct (orderByOfFilter filter); simpl;
        intros H; repeat (destruct H as [H|H]); try contradiction; subst w;
        rewrite ?hasStockClause_all, ?hasStockClause_category; tauto.
    + intros H; repeat (destruct H as [H|H]); try contradiction; subst w;
        rewrite ?hasStockClause_all; tauto.
  - intros Hv p Hp.
    assert (Hs : strict_eq_false v = false).
    { destruct (strict_eq_false v) eqn:E; [|reflexivity].
      apply strict_eq_false_iff in E. contradiction. }
    split.
    + apply findManyRows_all_In. split; [exact Hp|].
      unfold whereCondition_all. rewrite Hs. reflexivity.
    + intros Hb o. apply findManyRows_all_In. split; [exact Hp|].
      unfold whereCondition, additionalCondition. rewrite Hs.
      change (tv_true (tv_and (tv_and (matches db p (baseCondition name))
                                       (Some true)) (Some true)) = true).
      rewrite !tv_and_true_r. exact Hb.
Qed.

Lemma C2_witness :
  In (mkProduct 3 true 50 (Some 5))
     (findManyRows stockStore (categoryArgs "shoes" JUndefined None))
  /\ (hasStockClause (whereCondition "shoes" JUndefined) = true <->
      JUndefined = JBoolean false).
Proof.
  pose proof (C2_stock_clause_iff_false stockStore "shoes" "price_asc" None
                JUndefined) as [Hiff Hincl].
  split.
  - apply Hincl.
    + discriminate.
    + simpl. right. left. reflexivity.
    + reflexivity.
  - apply Hiff. right. left. simpl. left. reflexivity.
Defined.

(** ** C4: an unknown category fails before any product query *)

(** C4. When no category of the store has the requested name, both category
    listings throw NotFoundCategory and the only query they have sent is the
    category lookup: no [where] object was built and no product row read. *)
Theorem C4_unknown_category db name filter userId v :
  (forall c, In c (category db) -> categoryName c <> name) ->
  getProductsByCategory name userId v db =
    ([Q_category_findUnique name], Throws NotFoundCategoryException)
  /\ getProductsByCategoryAndFilter name filter userId v db =
    ([Q_category_findUnique name], Throws NotFoundCategoryException).
Proof.
  intros H. apply category_find_None in H.
  rewrite getProductsByCategory_run, getProductsByCategoryAndFilter_run, H.
  split; reflexivity.
Qed.

Lemma C4_witness :
  getProductsByCategory "bags" None (JBoolean true) shoesStore =
    ([Q_category_findUnique "bags"], Throws NotFoundCategoryException)
  /\ getProductsByCategoryAndFilter "bags" "price_asc" None (JBoolean true) shoesStore =
    ([Q_category_findUnique "bags"], Throws NotFoundCategoryException).
Proof.
  apply C4_unknown_category.
  intros c [<-|[]]. discriminate.
Defined.

(** ** C5: the filter tokens *)

Lemma orderByOfFilter_None filter :
  filter <> "discountRate_desc" -> filter <> "price_asc" -> filter <> "price_desc" ->
  orderByOfFilter filter = None.
Proof.
  intros H1 H2 H3. unfold orderByOfFilter.
  apply String.eqb_neq in H1, H2, H3. rewrite H1, H2, H3. reflexivity.
Qed.

(** C5. With a valid category, [getProductsByCategoryAndFilter] sends the
    product query ordered by (discountRate, desc) for [discountRate_desc], by
    (currentPrice, asc) for [price_asc] and by (currentPrice, desc) for
    [price_desc]; for any other token it throws NotFoundCategoryFilter, having
    sent nothing but the category lookup. *)
Theorem C5_filter_tokens db name filter userId v :
  (exists c, In c (category db) /\ categoryName c = name) ->
  (filter = "discountRate_desc" ->
     queries (getProductsByCategoryAndFilter name filter userId v db) =
     [Q_category_findUnique name;
      Q_product_findMany (categoryArgs name v (Some (By_discountRate, desc)))])
  /\ (filter = "price_asc" ->
     queries (getProductsByCategoryAndFilter name filter userId v db) =
     [Q_category_findUnique name;
      Q_product_findMany (categoryArgs name v (Some (By_currentPrice, asc)))])
  /\ (filter = "price_desc" ->
     queries (getProductsByCategoryAndFilter name filter userId v db) =
     [Q_category_findUnique name;
      Q_product_findMany (categoryArgs name v (Some (By_currentPrice, desc)))])
  /\ (filter <> "discountRate_desc" -> filter <> "price_asc" ->
      filter <> "price_desc" ->
     getProductsByCategoryAndFilter name filter userId v db =
     ([Q_category_findUnique name], Throws NotFoundCategoryFilterException)).
Proof.
  intros Hc. apply category_find_Some in Hc. destruct Hc as [c Hc].
  rewrite getProductsByCategoryAndFilter_run, Hc.
  repeat split.
  - intros ->. reflexivity.
  - intros ->. reflexivity.
  - intros ->. reflexivity.
  - intros H1 H2 H3. rewrite (orderByOfFilter_None _ H1 H2 H3). reflexivity.
Qed.

Lemma C5_witness :
  getProductsByCategoryAndFilter "shoes" "price_bogus" None (JBoolean true) shoesStore =
  ([Q_category_findUnique "shoes"], Throws NotFoundCategoryFilterException).
Proof.
  apply (C5_filter_tokens shoesStore "shoes" "price_bogus" None (JBoolean true)).
  - eexists. split; [left; reflexivity | reflexivity].
  - discriminate.
  - discriminate.
  - discriminate.
Defined.

(** ** C7: which listings signal an empty result *)

Lemma no_match_no_rows db w o :
  (forall p, In p (product db) -> tv_true (matches db p w) = false) ->
  findManyRows db {| where_ := w; orderBy := o; take := None |} = [].
Proof.
  intros H.
  destruct (findManyRows db _) as [|p l] eqn:E; [reflexivity|].
  assert (Hin : In p (findManyRows db {| where_ := w; orderBy := o; take := None |}))
    by (rewrite E; left; reflexivity).
  apply findManyRows_all_In in Hin. destruct Hin as [Hp Hm].
  rewrite (H p Hp) in Hm. discriminate.
Qed.

(** C7. [getAllProducts] always returns the projection of the rows it
    selected, the empty list included, and never throws.  With a valid
    category (and a valid filter token), the category listings throw
    NotFoundProduct when no row satisfies the predicate; that exception is not
    NotFoundCategory. *)
Theorem C7_empty_result_policy db name filter o userId v :
  outcome (getAllProducts userId v db) =
    Returns (map (selectListItem db)
               (findManyRows db {| where_ := whereCondition_all v;
                                   orderBy := None; take := None |}))
  /\ (product db = [] -> outcome (getAllProducts userId v db) = Returns [])
  /\ ((exists c, In c (category db) /\ categoryName c = name) ->
      (forall p, In p (product db) ->
                 tv_true (matches db p (whereCondition name v)) = false) ->
      outcome (getProductsByCategory name userId v db) =
        Throws NotFoundProductException
      /\ (orderByOfFilter filter = Some o ->
          outcome (getProductsByCategoryAndFilter name filter userId v db) =
            Throws NotFoundProductException))
  /\ NotFoundProductException <> NotFoundCategoryException.
Proof.
  repeat split.
  - intros H. rewrite getAllProducts_run. unfold findManyRows. simpl.
    rewrite H. reflexivity.
  - destruct H as [c Hc].
    pose proof (category_find_Some db name (ex_intro _ c Hc)) as [c' Hf].
    rewrite getProductsByCategory_run, Hf. simpl.
    unfold categoryArgs. rewrite (no_match_no_rows _ _ _ H0). reflexivity.
  - intros Ho. destruct H as [c Hc].
    pose proof (category_find_Some db name (ex_intro _ c Hc)) as [c' Hf].
    rewrite getProductsByCategoryAndFilter_run, Hf, Ho. simpl.
    unfold categoryArgs. rewrite (no_match_no_rows _ _ _ H0). reflexivity.
  - discriminate.
Qed.

Lemma C7_witness :
  outcome (getAllProducts None JUndefined emptyShoesStore) = Returns []
  /\ outcome (getProductsByCategory "shoes" None JUndefined emptyShoesStore) =
     Throws NotFoundProductException
  /\ outcome (getProductsByCategoryAndFilter "shoes" "price_asc" None JUndefined
                emptyShoesStore) = Throws NotFoundProductException.
Proof.
  pose proof (C7_empty_result_policy emptyShoesStore "shoes" "price_asc"
                (By_currentPrice, asc) None JUndefined) as [_ [H1 [H2 _]]].
  split; [apply H1; reflexivity|].
  assert (Hc : exists c, In c (category emptyShoesStore) /\ categoryName c = "shoes")
    by (eexists; split; [left; reflexivity | reflexivity]).
  assert (Hn : forall p, In p (product emptyShoesStore) ->
                 tv_true (matches emptyShoesStore p (whereCondition "shoes" JUndefined))
                 = false)
    by (intros p []).
  destruct (H2 Hc Hn) as [H3 H4].
  split; [exact H3 | apply H4; reflexivity].
Defined.

(** ** C9: the notification lookup *)

(** C9, as amended. [checkNotification] sends one [findFirst] and returns what
    it resolves to: a subscription row of the table pairing that user with
    that product when there is one, [null] when there is none. *)
Theorem C9_checkNotification_row_or_null db productId userId :
  exists r,
    checkNotification productId userId db =
      ([Q_userProduct_findFirst userId productId], Returns r)
    /\ (r = None <->
        forall row, In row (userProduct db) -> ~ pairs userId productId row)
    /\ (forall row, r = Some row ->
          In row (userProduct db) /\ pairs userId productId row).
Proof.
  unfold checkNotification, userProduct_findFirst, pairs.
  eexists. split; [reflexivity|].
  destruct (find _ _) as [row|] eqn:E.
  - apply find_some in E. destruct E as [Hin Hb].
    apply andb_true_iff in Hb. destruct Hb as [Hu Hp].
    apply Z.eqb_eq in Hu, Hp.
    split.
    + split; [discriminate|]. intros H. elim (H row Hin). tauto.
    + intros row' Heq. inversion Heq; subst. tauto.
  - split.
    + split; [|reflexivity]. intros _ row Hin [Hu Hp].
      apply (find_none _ _ E) in Hin. simpl in Hin.
      apply Z.eqb_eq in Hu, Hp. rewrite Hu, Hp in Hin. discriminate.
    + intros row' Heq. discriminate.
Qed.

Lemma C9_witness :
  In {| userProductId := 1; UserId := 7; ProductId := 1 |} (userProduct shoesStore)
  /\ pairs 7 1 {| userProductId := 1; UserId := 7; ProductId := 1 |}.
Proof.
  destruct (C9_checkNotification_row_or_null shoesStore 1 7) as [r [Hrun [_ Hrow]]].
  apply Hrow. injection Hrun as Hr. rewrite <- Hr. reflexivity.
Defined.

(** C9 as stated fails: for user 7 and product 1 of the scenario store the
    method returns the subscription row itself, which is no boolean. *)
Lemma C9_counterexample :
  outcome (checkNotification 1 7 shoesStore) =
    Returns (Some {| userProductId := 1; UserId := 7; ProductId := 1 |})
  /\ forall b,
      jsOfFindFirst (Some {| userProductId := 1; UserId := 7; ProductId := 1 |})
      <> R_boolean b.
Proof.
  split; [reflexivity | discriminate].
Qed.

(** ** C10: the user identifier is not observable *)

(** C10. Two runs of a product-read method of the repository on the same
    store that differ only in [userId] are equal, queries and outcome. *)
Theorem C10_userId_unobservable db (u1 u2 : option Z) v name filter productId :
  getAllProducts u1 v db = getAllProducts u2 v db
  /\ getTop10Products u1 db = getTop10Products u2 db
  /\ getProductsByCategory name u1 v db = getProductsByCategory name u2 v db
  /\ getProductsByCategoryAndFilter name filter u1 v db =
     getProductsByCategoryAndFilter name filter u2 v db
  /\ getProductDetail productId u1 db = getProductDetail productId u2 db.
Proof.
  repeat split.
Qed.

(** ** C6: the top-10 listing *)

Section Sorting.

Variable le : Product -> Product -> bool.
Hypothesis le_total : forall p q, le p q = true \/ le q p = true.
Hypothesis le_trans : forall p q r, le p q = true -> le q r = true -> le p r = true.

Lemma insert_by_sorted p l :
  StronglySorted (fun a b => le a b = true) l ->
  StronglySorted (fun a b => le a b = true) (insert_by le p l).
Proof.
  induction 1 as [|q l Hs IH Hq]; simpl.
  - constructor; constructor.
  - destruct (le p q) eqn:E.
    + constructor; [constructor; assumption|].
      constructor; [exact E|].
      rewrite Forall_forall in *. intros x Hx. eauto.
    + constructor; [exact IH|].
      rewrite Forall_forall in *. intros x Hx.
      apply insert_by_In in Hx. destruct Hx as [->|Hx]; [|auto].
      destruct (le_total p q) as [H|H]; congruence.
Qed.

Lemma sort_by_sorted l : StronglySorted (fun a b => le a b = true) (sort_by le l).
Proof.
  induction l as [|p l IH]; simpl; [constructor | now apply insert_by_sorted].
Qed.

End Sorting.

Lemma firstn_sorted {A} (R : A -> A -> Prop) n l :
  StronglySorted R l -> StronglySorted R (firstn n l).
Proof.
  intros H. revert n. induction H as [|x l Hs IH Hx]; intros [|n]; simpl;
    try constructor; auto.
  rewrite Forall_forall in *. intros y Hy. apply Hx.
  rewrite <- (firstn_skipn n l). apply in_or_app. now left.
Qed.

Lemma map_sorted {A B} (f : A -> B) (R : A -> A -> Prop) (S : B -> B -> Prop) l :
  (forall a b, In a l -> In b l -> R a b -> S (f a) (f b)) ->
  StronglySorted R l -> StronglySorted S (map f l).
Proof.
  intros HRS H. induction H as [|x l Hs IH Hx]; simpl; constructor.
  - apply IH. intros a b Ha Hb. apply HRS; now right.
  - rewrite Forall_forall in *. intros y Hy.
    apply in_map_iff in Hy. destruct Hy as [a [<- Ha]].
    apply HRS; [now left | now right | auto].
Qed.

Lemma key_leb_total a b : key_leb a b = true \/ key_leb b a = true.
Proof.
  destruct a as [x|], b as [y|]; simpl; auto.
  destruct (Z.leb_spec x y); [now left | right; apply Z.leb_le; lia].
Qed.

Lemma key_leb_trans a b c :
  key_leb a b = true -> key_leb b c = true -> key_leb a c = true.
Proof.
  destruct a as [x|], b as [y|], c as [z|]; simpl; try congruence.
  rewrite !Z.leb_le. lia.
Qed.

Lemma before_total f o p q : before f o p q = true \/ before f o q p = true.
Proof. destruct o; apply key_leb_total. Qed.

Lemma before_trans f o p q r :
  before f o p q = true -> before f o q r = true -> before f o p r = true.
Proof.
  destruct o; simpl; intros H1 H2; eauto using key_leb_trans.
Qed.

Lemma top10Where_true db p :
  tv_true (matches db p top10Where) = true <->
  exists d, discountRate p = Some d /\ d <> 0 /\ isOutOfStock p = false.
Proof.
  unfold top10Where. simpl.
  destruct (discountRate p) as [d|]; destruct (isOutOfStock p); simpl.
  - destruct (Z.eqb_spec d 0); simpl; split; intros H; try discriminate;
      destruct H as [d' [H1 [H2 H3]]]; discriminate.
  - destruct (Z.eqb_spec d 0); simpl; split; intros H; try discriminate.
    + destruct H as [d' [H1 [H2 H3]]]. congruence.
    + eauto.
    + reflexivity.
  - split; intros H; [discriminate|]. destruct H as [d' [H1 _]]. discriminate.
  - split; intros H; [discriminate|]. destruct H as [d' [H1 _]]. discriminate.
Qed.

Lemma top10_rows_sorted db :
  StronglySorted (fun a b => before By_discountRate desc a b = true)
    (findManyRows db top10Args).
Proof.
  unfold findManyRows, top10Args, applyTake, applyOrderBy.
  cbn [take orderBy where_].
  apply firstn_sorted. apply sort_by_sorted.
  - apply before_total.
  - apply before_trans.
Qed.

(** C6. [getTop10Products] sends one query; the items it yields are at most
    10, each has a discount rate that is neither null nor 0 and is in stock,
    they stand by discount rate in descending order, and the method throws
    NotFoundProduct exactly when that capped list is empty, returning it
    otherwise. *)
Theorem C6_top10 db userId :
  let items := map (selectListItem db) (findManyRows db top10Args) in
  (List.length items <= 10)%nat
  /\ Forall (fun i => exists d, ListItem.discountRate i = Some d /\ d <> 0
                                /\ ListItem.isOutOfStock i = false) items
  /\ StronglySorted rateDescending items
  /\ (outcome (getTop10Products userId db) = Throws NotFoundProductException
      <-> items = [])
  /\ (items <> [] ->
      getTop10Products userId db = ([Q_product_findMany top10Args], Returns items)).
Proof.
  intros items.
  assert (Hrows : forall p, In p (findManyRows db top10Args) ->
            exists d, discountRate p = Some d /\ d <> 0 /\ isOutOfStock p = false).
  { intros p Hp. apply findManyRows_In in Hp. destruct Hp as [_ Hm].
    now apply top10Where_true in Hm. }
  assert (Hrun : getTop10Products userId db =
            ([Q_product_findMany top10Args], orEmpty items)).
  { unfold getTop10Products, bind, product_findMany, orEmpty. simpl.
    fold top10Args. fold items.
    destruct (List.length items =? 0)%nat; reflexivity. }
  split; [|split; [|split; [|split]]].
  - unfold items. rewrite length_map.
    unfold findManyRows, top10Args, applyTake. cbn [take].
    apply firstn_le_length.
  - apply Forall_forall. intros i Hi.
    apply in_map_iff in Hi. destruct Hi as [p [<- Hp]]. simpl. auto.
  - unfold items.
    apply map_sorted with (R := fun a b => before By_discountRate desc a b = true);
      [|apply top10_rows_sorted].
    intros a b Ha Hb Hab.
    destruct (Hrows a Ha) as [x [Hx _]], (Hrows b Hb) as [y [Hy _]].
    exists x, y. simpl. repeat split; try assumption.
    unfold before, sortKey in Hab. rewrite Hx, Hy in Hab. simpl in Hab.
    now apply Z.leb_le.
  - rewrite Hrun. unfold orEmpty. simpl.
    destruct items; simpl; split; intros H; congruence.
  - intros Hne. rewrite Hrun. unfold orEmpty.
    destruct items; [congruence | reflexivity].
Qed.

(** Scenario C: only product 1 is listed. *)
Lemma C6_witness :
  getTop10Products None ratesStore =
  ([Q_product_findMany top10Args],
   Returns [selectListItem ratesStore (mkProduct 1 false 100 (Some 20))]).
Proof.
  apply (proj2 (proj2 (proj2 (proj2 (C6_top10 ratesStore None))))).
  discriminate.
Defined.

(** ** C3: the cursor of the category listing *)

(** C3. When a cursor is present, what [listByCategory] returns is the
    category listing restricted to the products whose identifier is strictly
    greater than the cursor; without a cursor the run is that of the
    repository's [getProductsByCategory], with no such restriction. *)
Theorem C3_listByCategory_cursor db name userId v :
  (forall c ps,
      outcome (ProductService.listByCategory name userId (Some c) v db) = Returns ps ->
      ps = filter (fun i => c <? ListItem.productId i)
             (map (selectListItem db) (findManyRows db (categoryArgs name v None)))
      /\ Forall (fun i => c < ListItem.productId i) ps)
  /\ ProductService.listByCategory name userId None v db =
     getProductsByCategory name userId v db.
Proof.
  split.
  - intros c ps.
    unfold ProductService.listByCategory, bind, category_findUnique.
    destruct (find _ _); [|discriminate].
    unfold product_findMany; simpl. fold (categoryArgs name v None).
    destruct (List.length _ =? 0)%nat; simpl; intros H; inversion H.
    split; [reflexivity|].
    apply Forall_forall. intros i Hi. apply filter_In in Hi.
    now apply Z.ltb_lt.
  - rewrite getProductsByCategory_run.
    unfold ProductService.listByCategory, bind, category_findUnique.
    destruct (find _ _); [|reflexivity].
    unfold product_findMany, orEmpty; simpl. fold (categoryArgs name v None).
    destruct (List.length _ =? 0)%nat; reflexivity.
Qed.

Lemma C3_witness :
  [selectListItem stockStore (mkProduct 3 true 50 (Some 5))] =
    filter (fun i => 1 <? ListItem.productId i)
      (map (selectListItem stockStore)
         (findManyRows stockStore (categoryArgs "shoes" (JBoolean true) None)))
  /\ Forall (fun i => 1 < ListItem.productId i)
       [selectListItem stockStore (mkProduct 3 true 50 (Some 5))].
Proof.
  apply (proj1 (C3_listByCategory_cursor stockStore "shoes" None (JBoolean true)) 1).
  reflexivity.
Defined.

(** ** C8: the cursor coercion of the controller *)

Lemma digitOf_10_code c d :
  digitOf 10 c = Some d -> Z.of_nat (nat_of_ascii c) = d + 48 /\ 0 <= d <= 9.
Proof.
  unfold digitOf. set (n := Z.of_nat (nat_of_ascii c)).
  destruct ((48 <=? n) && (n <=? 57))%bool eqn:E1.
  - apply andb_true_iff in E1. destruct E1 as [Ha Hb].
    apply Z.leb_le in Ha, Hb.
    destruct (Z.ltb_spec (n - 48) 10); intros Hd; inversion Hd; lia.
  - destruct ((97 <=? n) && (n <=? 102))%bool eqn:E2.
    + apply andb_true_iff in E2. destruct E2 as [Ha Hb].
      apply Z.leb_le in Ha, Hb.
      destruct (Z.ltb_spec (n - 87) 10); intros Hd; [lia | discriminate].
    + destruct ((65 <=? n) && (n <=? 70))%bool eqn:E3.
      * apply andb_true_iff in E3. destruct E3 as [Ha Hb].
        apply Z.leb_le in Ha, Hb.
        destruct (Z.ltb_spec (n - 55) 10); intros Hd; [lia | discriminate].
      * simpl. discriminate.
Qed.

(** A decimal digit is none of the characters with a role of their own. *)
Lemma digit_not c d (x : ascii) :
  digitOf 10 c = Some d -> digitOf 10 x = None -> Ascii.eqb c x = false.
Proof.
  intros Hc Hx. destruct (Ascii.eqb_spec c x); [|reflexivity].
  subst. congruence.
Qed.

Lemma digit_not_space c d : digitOf 10 c = Some d -> isStrWhiteSpaceChar c = false.
Proof.
  intros H. apply digitOf_10_code in H. unfold isStrWhiteSpaceChar.
  repeat match goal with
         | |- context [?a =? ?b] => destruct (Z.eqb_spec a b); [lia|]
         end.
  reflexivity.
Qed.

Lemma digit_no_radix c d : digitOf 10 c = Some d -> radixOfPrefix c = None.
Proof.
  intros H. unfold radixOfPrefix.
  rewrite !(digit_not c d _ H) by reflexivity. reflexivity.
Qed.

Lemma readDigits_decimalValue s acc count n :
  decimalValue acc s = Some n ->
  readDigits 10 acc count s = (n, count + Z.of_nat (String.length s), EmptyString).
Proof.
  revert acc count. induction s as [|c s IH]; simpl; intros acc count H.
  - inversion H. now rewrite Z.add_0_r.
  - destruct (digitOf 10 c) as [d|]; [|discriminate].
    rewrite (IH _ _ H). f_equal. f_equal. lia.
Qed.

Lemma trimEnd_digits s acc n : decimalValue acc s = Some n -> trimEnd s = s.
Proof.
  revert acc. induction s as [|c s IH]; simpl; intros acc H; [reflexivity|].
  destruct (digitOf 10 c) as [d|] eqn:Ed; [|discriminate].
  rewrite (IH _ H). destruct s; [|reflexivity].
  now rewrite (digit_not_space c d Ed).
Qed.

Lemma StringToNumber_digits s n :
  s <> EmptyString -> decimalValue 0 s = Some n ->
  StringToNumber s = ofDecimal false n 0.
Proof.
  intros Hne Hv. destruct s as [|c t]; [congruence|].
  pose proof Hv as Hv'. simpl in Hv'.
  destruct (digitOf 10 c) as [d|] eqn:Ed; [|discriminate].
  unfold StringToNumber.
  assert (Hs : trimStart (String c t) = String c t)
    by (simpl; now rewrite (digit_not_space c d Ed)).
  rewrite Hs, (trimEnd_digits _ _ _ Hv).
  rewrite !(digit_not c d _ Ed) by reflexivity.
  assert (Hp : nonDecimalPrefix (String c t) = None).
  { unfold nonDecimalPrefix. destruct t as [|c' t']; [reflexivity|].
    simpl in Hv'. destruct (digitOf 10 c') as [d'|] eqn:Ed'; [|discriminate].
    rewrite (digit_no_radix c' d' Ed'). now destruct (Ascii.eqb c "0"). }
  rewrite Hp. unfold unsignedDecimal.
  assert (Hi : String.eqb (String c t) "Infinity" = false).
  { simpl. now rewrite (digit_not c d _ Ed) by reflexivity. }
  rewrite Hi, (readDigits_decimalValue _ _ 0 _ Hv).
  cbn [readExponent].
  assert (Hc : (0 + Z.of_nat (String.length (String c t)) =? 0) = false)
    by (apply Z.eqb_neq; simpl String.length; lia).
  rewrite Hc. reflexivity.
Qed.

Lemma oddPart_value p : forall e a b,
  oddPart p e = (a, b) -> e <= b /\ Zpos a * 2 ^ (b - e) = Zpos p.
Proof.
  induction p as [p IH|p IH|]; intros e a b H; simpl in H.
  - inversion H; subst. rewrite Z.sub_diag. split; lia.
  - apply IH in H. destruct H as [Hle Hv]. split; [lia|].
    replace (b - e) with (Z.succ (b - (e + 1))) by lia.
    rewrite Z.pow_succ_r by lia. lia.
  - inversion H; subst. rewrite Z.sub_diag. split; lia.
Qed.

Lemma normalize_shift n k e :
  0 < n -> 0 <= k -> normalize (n * 2 ^ k) (e - k) = normalize n e.
Proof.
  intros Hn Hk. revert e. pattern k. apply natlike_ind; [| |exact Hk].
  - intros e. rewrite Z.mul_1_r, Z.sub_0_r. reflexivity.
  - intros x Hx IH e. rewrite Z.pow_succ_r by lia.
    rewrite <- (IH e).
    assert (Hpos : 0 < n * 2 ^ x) by (apply Z.mul_pos_pos; [lia | apply Z.pow_pos_nonneg; lia]).
    destruct (n * 2 ^ x) as [|p|p] eqn:E; try lia.
    replace (n * (2 * 2 ^ x)) with (2 * (n * 2 ^ x)) by lia.
    rewrite E. change (2 * Zpos p) with (Zpos p~0). simpl.
    replace (e - Z.succ x + 1) with (e - x) by lia. reflexivity.
Qed.

(** An integer below 2^53 is a double: rounding leaves it as it is. *)
Lemma roundToDouble_integer n :
  0 < n < 2 ^ 53 ->
  roundToDouble false n 1 = let '(m, e) := normalize n 0 in Finite m e.
Proof.
  intros [Hpos Hlt]. unfold roundToDouble.
  change (Z.log2 1) with 0. rewrite Z.sub_0_r.
  pose proof (Z.log2_nonneg n) as Hl0.
  pose proof (Z.log2_spec n Hpos) as [Hlo Hhi].
  assert (Hl52 : Z.log2 n <= 52).
  { assert (Z.log2 n < 53); [|lia]. apply Z.log2_lt_pow2; assumption. }
  destruct (Z.leb_spec 0 (Z.log2 n)); [|lia].
  rewrite Z.mul_1_l.
  destruct (Z.leb_spec (2 ^ Z.log2 n) n); [|lia].
  rewrite Z.max_l by lia.
  set (q := Z.log2 n - 52).
  assert (Hround : forall a, 0 <= a -> roundHalfEven a 1 = a).
  { intros a Ha. unfold roundHalfEven. rewrite Z.mod_1_r, Z.div_1_r. reflexivity. }
  assert (Hm : (if 0 <=? q then roundHalfEven n (1 * 2 ^ q)
                else roundHalfEven (n * 2 ^ (- q)) 1) = n * 2 ^ (- q)).
  { destruct (Z.leb_spec 0 q).
    - assert (q = 0) by (unfold q in *; lia).
      replace q with 0 by lia. simpl. rewrite Hround by lia. lia.
    - apply Hround. apply Z.mul_nonneg_nonneg; [lia | apply Z.pow_nonneg; lia]. }
  rewrite Hm.
  assert (Hmpos : 0 < n * 2 ^ (- q))
    by (apply Z.mul_pos_pos; [lia | apply Z.pow_pos_nonneg; unfold q; lia]).
  destruct (Z.eqb_spec (n * 2 ^ (- q)) 0); [lia|].
  assert (Hov : ((0 <=? q) && (2 ^ 1024 <=? n * 2 ^ (- q) * 2 ^ q))%bool = false).
  { destruct (Z.leb_spec 0 q); [|reflexivity].
    assert (Hq : q = 0) by (unfold q in *; lia).
    rewrite Hq. change (2 ^ (- 0)) with 1. change (2 ^ 0) with 1.
    rewrite !Z.mul_1_r. cbn [andb]. apply Z.leb_gt.
    eapply Z.lt_trans; [exact Hlt|]. reflexivity. }
  rewrite Hov.
  replace q with (0 - (- q)) at 2 by lia.
  rewrite normalize_shift by (unfold q; lia).
  destruct (normalize n 0). reflexivity.
Qed.

Lemma normalize_integer n m e :
  0 < n -> normalize n 0 = (m, e) -> 0 <= e /\ m * 2 ^ e = n /\ m <> 0.
Proof.
  intros Hn H. destruct n as [|p|p]; try lia. simpl in H.
  destruct (oddPart p 0) as [a b] eqn:E. inversion H; subst.
  apply oddPart_value in E. rewrite Z.sub_0_r in E.
  destruct E as [Hle Hv]. repeat split; [lia | exact Hv | discriminate].
Qed.

(** C8, as amended. The controller passes [Number(lastIdString)] downstream
    when that number is truthy and [null] otherwise, that is when the string
    is absent, or converts to NaN or to zero.  What is passed is the number as
    converted, an integer or not; for a string of decimal digits whose value
    lies between 1 and 2^53 - 1 it is that integer, and for one whose value is
    0, the empty string included, it is [null]. *)
Theorem C8_lastId_coercion (lastIdString : option string) :
  (ProductController.lastId lastIdString = None <->
     Number lastIdString = NaN \/ exists e, Number lastIdString = Finite 0 e)
  /\ (forall x, ProductController.lastId lastIdString = Some x ->
        x = Number lastIdString /\ truthy x = true)
  /\ (lastIdString = None -> ProductController.lastId lastIdString = None)
  /\ (forall s n, lastIdString = Some s -> s <> EmptyString ->
        decimalValue 0 s = Some n -> 0 < n < 2 ^ 53 ->
        exists m e, ProductController.lastId lastIdString = Some (Finite m e)
                    /\ 0 <= e /\ m * 2 ^ e = n)
  /\ (forall s, lastIdString = Some s -> decimalValue 0 s = Some 0 ->
        ProductController.lastId lastIdString = None).
Proof.
  unfold ProductController.lastId.
  split; [|split; [|split; [|split]]].
  - destruct (Number lastIdString) as [|neg|m e]; simpl.
    + split; [auto | reflexivity].
    + split; [discriminate|]. intros [H|[e H]]; discriminate.
    + destruct m; simpl; split; try discriminate; eauto;
        intros [H|[e' H]]; discriminate.
  - intros x. destruct (truthy (Number lastIdString)) eqn:E; [|discriminate].
    intros H. inversion H; subst. auto.
  - intros ->. reflexivity.
  - intros s n -> Hne Hv Hn. simpl Number.
    rewrite (StringToNumber_digits s n Hne Hv).
    unfold ofDecimal. destruct (Z.eqb_spec n 0); [lia|].
    simpl (0 <=? 0). cbv iota. rewrite Z.pow_0_r, Z.mul_1_r.
    rewrite (roundToDouble_integer n Hn).
    destruct (normalize n 0) as [m e] eqn:E.
    apply normalize_integer in E; [|lia]. destruct E as [He [Hm Hm0]].
    exists m, e. destruct m; [congruence| |]; simpl; auto.
  - intros s -> Hv. simpl Number.
    destruct s as [|c t]; [reflexivity|].
    assert (Hne : String c t <> EmptyString) by discriminate.
    rewrite (StringToNumber_digits _ 0 Hne Hv). reflexivity.
Qed.

Lemma C8_witness :
  exists m e, ProductController.lastId (Some "42") = Some (Finite m e)
              /\ 0 <= e /\ m * 2 ^ e = 42.
Proof.
  apply (proj1 (proj2 (proj2 (proj2 (C8_lastId_coercion (Some "42"))))) "42" 42).
  - reflexivity.
  - discriminate.
  - reflexivity.
  - split; reflexivity.
Defined.

(** C8 as stated fails: the string 1.5 converts to a truthy number, and what
    the controller passes downstream is 1.5 = 3 * 2^-1, not an integer. *)
Lemma C8_counterexample :
  truthy (Number (Some "1.5")) = true
  /\ ProductController.lastId (Some "1.5") = Some (Finite 3 (-1))
  /\ isInteger (Finite 3 (-1)) = false.
Proof.
  repeat split.
Qed.

(** * Further properties of the repository and the controller *)

(** ** What the predicates select *)

Lemma whereCondition_listed db name v p :
  tv_true (matches db p (whereCondition name v)) = listed db name v p.
Proof.
  unfold whereCondition, baseCondition, additionalCondition, listed, inCategory.
  destruct (existsb _ _) eqn:Ec;
    destruct (discountRate p) as [d|] eqn:Ed;
    destruct (isOutOfStock p) eqn:Es;
    destruct v as [| |[|]|n|s]; simpl; rewrite ?Ec, ?Ed, ?Es; reflexivity.
Qed.

Lemma top10Where_qualifies db p :
  tv_true (matches db p top10Where) = qualifies p.
Proof.
  unfold top10Where, qualifies.
  destruct (discountRate p) as [d|] eqn:Ed; destruct (isOutOfStock p) eqn:Es;
    simpl; rewrite ?Ed, ?Es; simpl; try reflexivity;
    destruct (d =? 0); reflexivity.
Qed.

Lemma category_rows db name v :
  findManyRows db (categoryArgs name v None) = filter (listed db name v) (product db).
Proof.
  unfold findManyRows, categoryArgs; simpl.
  apply filter_ext. intros p. apply whereCondition_listed.
Qed.

Lemma category_rows_sorted db name v o :
  findManyRows db (categoryArgs name v (Some o)) =
  sort_by (before (fst o) (snd o)) (filter (listed db name v) (product db)).
Proof.
  destruct o as [f d]. unfold findManyRows, categoryArgs; simpl.
  f_equal. apply filter_ext. intros p. apply whereCondition_listed.
Qed.

Lemma orEmpty_map_nil db rows :
  orEmpty (map (selectListItem db) rows) =
  match rows with
  | [] => Throws NotFoundProductException
  | _ => Returns (map (selectListItem db) rows)
  end.
Proof. destruct rows; reflexivity. Qed.


(** ** getProductDetail *)

(** X1. [getProductDetail] sends one [findUnique]; it throws NotFoundProduct
    exactly when no row of the table has the identifier, and what it returns
    otherwise is the detail projection of a row of the table with that
    identifier. *)
Theorem getProductDetail_by_identifier db id userId :
  queries (getProductDetail id userId db) = [Q_product_findUnique id]
  /\ (outcome (getProductDetail id userId db) = Throws NotFoundProductException
      <-> forall p, In p (product db) -> productId p <> id)
  /\ (forall d, outcome (getProductDetail id userId db) = Returns d ->
        DetailItem.productId d = id
        /\ exists p, In p (product db) /\ d = selectDetailItem db p).
Proof.
  unfold getProductDetail, bind, product_findUnique.
  destruct (find (fun p => productId p =? id) (product db)) as [p|] eqn:E; simpl.
  - apply find_some in E. destruct E as [Hin Hid]. apply Z.eqb_eq in Hid.
    split; [reflexivity|]. split.
    + split; [discriminate|]. intros H. elim (H p Hin Hid).
    + intros d Hd. inversion Hd; subst d. simpl. eauto.
  - split; [reflexivity|]. split.
    + split; [|reflexivity]. intros _ p Hin Hid.
      apply (find_none _ _ E) in Hin. simpl in Hin.
      apply Z.eqb_neq in Hin. contradiction.
    + intros d Hd. discriminate.
Qed.

Lemma getProductDetail_by_identifier_witness :
  DetailItem.productId (selectDetailItem shoesStore (mkProduct 2 false 200 None)) = 2
  /\ exists p, In p (product shoesStore)
               /\ selectDetailItem shoesStore (mkProduct 2 false 200 None)
                  = selectDetailItem shoesStore p.
Proof.
  apply (proj2 (proj2 (getProductDetail_by_identifier shoesStore 2 None))).
  reflexivity.
Defined.

(** ** The category listings, row by row *)

(** X2. With a valid category, [getProductsByCategory] returns, in table order,
    the projections of exactly the rows that belong to the category, have a
    discount rate and, when the argument is [false], are in stock; it throws
    NotFoundProduct when there is no such row. *)
Theorem getProductsByCategory_exact db name userId v :
  (exists c, In c (category db) /\ categoryName c = name) ->
  outcome (getProductsByCategory name userId v db) =
  match filter (listed db name v) (product db) with
  | [] => Throws NotFoundProductException
  | rows => Returns (map (selectListItem db) rows)
  end.
Proof.
  intros Hc. apply category_find_Some in Hc. destruct Hc as [c Hc].
  rewrite getProductsByCategory_run, Hc. simpl.
  rewrite category_rows, orEmpty_map_nil.
  destruct (filter _ _); reflexivity.
Qed.

Lemma getProductsByCategory_exact_witness :
  outcome (getProductsByCategory "shoes" None (JBoolean false) mixedStore) =
  Returns [selectListItem mixedStore (mkProduct 1 false 300 (Some 10));
           selectListItem mixedStore (mkProduct 3 false 100 (Some 20))].
Proof.
  apply (getProductsByCategory_exact mixedStore "shoes" None (JBoolean false)).
  eexists. split; [left; reflexivity | reflexivity].
Defined.

(** X3. Every item a category listing returns carries the requested category among
    its [ProductCategory] entries. *)
Theorem category_items_carry_category db name filter userId v ps :
  outcome (getProductsByCategory name userId v db) = Returns ps \/
  outcome (getProductsByCategoryAndFilter name filter userId v db) = Returns ps ->
  Forall (fun i => exists r, In r (ListItem.ProductCategory i)
                             /\ ref_categoryName r = name) ps.
Proof.
  intros Hret. destruct (category_listing_rows _ _ _ _ _ _ Hret) as [o ->].
  apply Forall_forall. intros i Hi.
  apply in_map_iff in Hi. destruct Hi as [p [<- Hp]].
  apply findManyRows_In in Hp. destruct Hp as [_ Hm].
  apply whereCondition_true in Hm. destruct Hm as [Hc _].
  apply existsb_exists in Hc. destruct Hc as [c [Hin Hn]].
  apply String.eqb_eq in Hn.
  exists {| ref_categoryId := categoryId c; ref_categoryName := categoryName c |}.
  split; [|exact Hn]. simpl. unfold categoryRefs.
  apply in_map_iff. eauto.
Qed.

Lemma category_items_carry_category_witness :
  Forall (fun i => exists r, In r (ListItem.ProductCategory i)
                             /\ ref_categoryName r = "bags")
    [selectListItem mixedStore (mkProduct 3 false 100 (Some 20))].
Proof.
  apply (category_items_carry_category mixedStore "bags" "price_asc" None JUndefined).
  left. reflexivity.
Defined.

(** X4. When the argument is the boolean [false], no listing of the repository
    returns an out-of-stock item. *)
Theorem false_hides_out_of_stock db name filter userId ps :
  outcome (getAllProducts userId (JBoolean false) db) = Returns ps \/
  outcome (getProductsByCategory name userId (JBoolean false) db) = Returns ps \/
  outcome (getProductsByCategoryAndFilter name filter userId (JBoolean false) db)
    = Returns ps ->
  Forall (fun i => ListItem.isOutOfStock i = false) ps.
Proof.
  intros [H|H].
  - rewrite getAllProducts_run in H. simpl in H. inversion H; subst ps.
    apply Forall_forall. intros i Hi.
    apply in_map_iff in Hi. destruct Hi as [p [<- Hp]].
    apply findManyRows_In in Hp. destruct Hp as [_ Hm]. simpl in Hm. simpl.
    destruct (isOutOfStock p); [discriminate | reflexivity].
  - destruct (category_listing_rows _ _ _ _ _ _ H) as [o ->].
    apply Forall_forall. intros i Hi.
    apply in_map_iff in Hi. destruct Hi as [p [<- Hp]].
    apply findManyRows_In in Hp. destruct Hp as [_ Hm].
    apply whereCondition_true in Hm. destruct Hm as [_ [_ Hs]]. simpl. auto.
Qed.

Lemma false_hides_out_of_stock_witness :
  Forall (fun i => ListItem.isOutOfStock i = false)
    [selectListItem mixedStore (mkProduct 1 false 300 (Some 10));
     selectListItem mixedStore (mkProduct 3 false 100 (Some 20));
     selectListItem mixedStore (mkProduct 4 false 50 None)].
Proof.
  apply (false_hides_out_of_stock mixedStore "shoes" "price_asc" None).
  left. reflexivity.
Defined.

(** X5. [getAllProducts] returns the whole table in table order unless the
    argument is the boolean [false], and then the in-stock rows in table
    order; rows without a discount rate are listed like the others. *)
Theorem getAllProducts_exact db userId v :
  outcome (getAllProducts userId v db) =
  Returns (map (selectListItem db)
             (if strict_eq_false v
              then filter (fun p => negb (isOutOfStock p)) (product db)
              else product db)).
Proof.
  rewrite getAllProducts_run. unfold findManyRows, whereCondition_all. simpl.
  destruct (strict_eq_false v); simpl.
  - do 2 f_equal. apply filter_ext. intros p. now destruct (isOutOfStock p).
  - do 2 f_equal. induction (product db) as [|p l IH]; simpl; congruence.
Qed.

(** X6. Hiding out-of-stock products only removes items: whatever
    [getProductsByCategory] returns for [false] is among what it returns for
    any other argument, which then does not throw. *)
Theorem stock_flag_only_removes db name userId userId' v ps :
  outcome (getProductsByCategory name userId (JBoolean false) db) = Returns ps ->
  exists ps', outcome (getProductsByCategory name userId' v db) = Returns ps'
              /\ incl ps ps'.
Proof.
  rewrite !getProductsByCategory_run.
  destruct (find _ _); [|discriminate]. simpl.
  rewrite !category_rows, !orEmpty_map_nil.
  assert (Hsub : incl (filter (listed db name (JBoolean false)) (product db))
                      (filter (listed db name v) (product db))).
  { intros p Hp. apply filter_In in Hp. destruct Hp as [Hin Hl].
    apply filter_In. split; [exact Hin|].
    unfold listed in *. simpl in Hl.
    destruct (inCategory db name p); [|discriminate].
    destruct (discountRate p); [|discriminate].
    destruct (isOutOfStock p); [discriminate|].
    simpl. now rewrite orb_true_r. }
  destruct (filter (listed db name (JBoolean false)) (product db)) as [|p rows] eqn:E;
    [discriminate|].
  intros H. inversion H; subst ps.
  destruct (filter (listed db name v) (product db)) as [|q rows'] eqn:E'.
  - elim (Hsub p). left. reflexivity.
  - eexists. split; [reflexivity|].
    intros i Hi.
    change (In i (map (selectListItem db) (p :: rows))) in Hi.
    apply in_map_iff in Hi. destruct Hi as [x [<- Hx]].
    apply in_map. apply Hsub. exact Hx.
Qed.

Lemma stock_flag_only_removes_witness :
  exists ps', outcome (getProductsByCategory "shoes" None JUndefined mixedStore)
              = Returns ps'
              /\ incl [selectListItem mixedStore (mkProduct 1 false 300 (Some 10));
                       selectListItem mixedStore (mkProduct 3 false 100 (Some 20))]
                      ps'.
Proof.
  apply (stock_flag_only_removes mixedStore "shoes" None None JUndefined).
  reflexivity.
Defined.

(** ** The filtered listing: order, content, exceptions *)

Lemma insert_by_perm le p l : Permutation (insert_by le p l) (p :: l).
Proof.
  induction l as [|q l IH]; simpl; [reflexivity|].
  destruct (le p q); [reflexivity|].
  rewrite IH. apply perm_swap.
Qed.

Lemma sort_by_perm le l : Permutation (sort_by le l) l.
Proof.
  induction l as [|p l IH]; simpl; [reflexivity|].
  rewrite insert_by_perm. now constructor.
Qed.

Lemma listed_has_rate db name v p :
  listed db name v p = true -> exists d, discountRate p = Some d.
Proof.
  unfold listed. destruct (discountRate p) as [d|]; [eauto|].
  rewrite andb_false_r. discriminate.
Qed.

Lemma before_itemBefore db f d a b :
  (exists x, discountRate a = Some x) -> (exists y, discountRate b = Some y) ->
  before f d a b = true ->
  itemBefore (f, d) (selectListItem db a) (selectListItem db b).
Proof.
  intros [x Hx] [y Hy]. unfold before, sortKey, itemBefore, rateDescending.
  destruct f, d; simpl; rewrite ?Hx, ?Hy; simpl; rewrite Z.leb_le; intros H;
    eauto 6.
Qed.

(** X7. What the filtered listing returns is ordered by the field and in the
    direction of its token: by current price, ascending or descending, or by
    discount rate, descending. *)
Theorem filtered_listing_sorted db name token o userId v ps :
  orderByOfFilter token = Some o ->
  outcome (getProductsByCategoryAndFilter name token userId v db) = Returns ps ->
  StronglySorted (itemBefore o) ps.
Proof.
  intros Ho. rewrite getProductsByCategoryAndFilter_run, Ho.
  destruct (find _ _); [|discriminate]. simpl.
  intros H. apply orEmpty_Returns in H. destruct H as [-> _].
  rewrite category_rows_sorted. destruct o as [f d]. simpl.
  apply map_sorted with (R := fun a b => before f d a b = true).
  - intros a b Ha Hb. apply sort_by_In, filter_In in Ha, Hb.
    apply before_itemBefore; eapply listed_has_rate; [apply Ha | apply Hb].
  - apply sort_by_sorted; [apply before_total | apply before_trans].
Qed.

Lemma filtered_listing_sorted_witness :
  StronglySorted (itemBefore (By_currentPrice, asc))
    [selectListItem mixedStore (mkProduct 2 true 100 (Some 30));
     selectListItem mixedStore (mkProduct 3 false 100 (Some 20));
     selectListItem mixedStore (mkProduct 1 false 300 (Some 10))].
Proof.
  apply (filtered_listing_sorted mixedStore "shoes" "price_asc"
           (By_currentPrice, asc) None JUndefined).
  - reflexivity.
  - reflexivity.
Defined.

(** X8. A valid filter token changes the order of the category listing and nothing
    else: the filtered listing returns a permutation of what
    [getProductsByCategory] returns, and throws what it throws. *)
Theorem filter_only_reorders db name token o userId v :
  orderByOfFilter token = Some o ->
  match outcome (getProductsByCategory name userId v db) with
  | Returns ps =>
      exists ps',
        outcome (getProductsByCategoryAndFilter name token userId v db) = Returns ps'
        /\ Permutation ps ps'
  | Throws e =>
      outcome (getProductsByCategoryAndFilter name token userId v db) = Throws e
  end.
Proof.
  intros Ho. rewrite getProductsByCategory_run, getProductsByCategoryAndFilter_run, Ho.
  destruct (find _ _); [|reflexivity]. simpl.
  rewrite category_rows, category_rows_sorted, !orEmpty_map_nil.
  pose proof (sort_by_perm (before (fst o) (snd o))
                (filter (listed db name v) (product db))) as Hp.
  destruct (filter (listed db name v) (product db)) as [|p rows]; [reflexivity|].
  destruct (sort_by _ (p :: rows)) as [|q rows'] eqn:E.
  - apply Permutation_nil in Hp. discriminate.
  - eexists. split; [reflexivity|]. apply Permutation_map. now symmetry.
Qed.

Lemma filter_only_reorders_witness :
  exists ps',
    outcome (getProductsByCategoryAndFilter "shoes" "price_desc" None JUndefined
               mixedStore) = Returns ps'
    /\ Permutation
         [selectListItem mixedStore (mkProduct 1 false 300 (Some 10));
          selectListItem mixedStore (mkProduct 2 true 100 (Some 30));
          selectListItem mixedStore (mkProduct 3 false 100 (Some 20))] ps'.
Proof.
  apply (filter_only_reorders mixedStore "shoes" "price_desc"
           (By_currentPrice, desc) None JUndefined).
  reflexivity.
Defined.

Lemma orderByOfFilter_None_iff token :
  orderByOfFilter token = None <->
  token <> "discountRate_desc" /\ token <> "price_asc" /\ token <> "price_desc".
Proof.
  split.
  - unfold orderByOfFilter.
    destruct (String.eqb_spec token "discountRate_desc"); [discriminate|].
    destruct (String.eqb_spec token "price_asc"); [discriminate|].
    destruct (String.eqb_spec token "price_desc"); [discriminate|].
    tauto.
  - intros [H1 [H2 H3]]. now apply orderByOfFilter_None.
Qed.

Lemma orderByOfFilter_valid_iff token :
  orderByOfFilter token <> None <->
  token = "discountRate_desc" \/ token = "price_asc" \/ token = "price_desc".
Proof.
  unfold orderByOfFilter.
  destruct (String.eqb_spec token "discountRate_desc"); [split; [auto | discriminate]|].
  destruct (String.eqb_spec token "price_asc"); [split; [auto | discriminate]|].
  destruct (String.eqb_spec token "price_desc"); [split; [auto | discriminate]|].
  split; [congruence | tauto].
Qed.

Lemma category_find_iff db name :
  (exists c, find (fun c => String.eqb (categoryName c) name) (category db) = Some c)
  <-> exists c, In c (category db) /\ categoryName c = name.
Proof.
  split; [|apply category_find_Some].
  intros [c Hc]. apply find_some in Hc. destruct Hc as [Hin Hn].
  apply String.eqb_eq in Hn. eauto.
Qed.

(** X9. The three exceptions of the filtered listing, in the order of the checks:
    NotFoundCategory exactly when the category is unknown; NotFoundCategoryFilter
    exactly when the category is known and the token is none of the three;
    NotFoundProduct exactly when category and token are valid and no row is
    listed. *)
Theorem filtered_listing_exceptions db name token userId v :
  let run := outcome (getProductsByCategoryAndFilter name token userId v db) in
  (run = Throws NotFoundCategoryException <->
     forall c, In c (category db) -> categoryName c <> name)
  /\ (run = Throws NotFoundCategoryFilterException <->
     (exists c, In c (category db) /\ categoryName c = name)
     /\ token <> "discountRate_desc" /\ token <> "price_asc"
     /\ token <> "price_desc")
  /\ (run = Throws NotFoundProductException <->
     (exists c, In c (category db) /\ categoryName c = name)
     /\ (token = "discountRate_desc" \/ token = "price_asc"
         \/ token = "price_desc")
     /\ forall p, In p (product db) -> listed db name v p = false).
Proof.
  intros run. unfold run. clear run.
  rewrite getProductsByCategoryAndFilter_run.
  rewrite <- category_find_None, <- category_find_iff, <- orderByOfFilter_None_iff,
    <- orderByOfFilter_valid_iff.
  destruct (find _ _) as [c|]; simpl.
  - destruct (orderByOfFilter token) as [o|]; simpl.
    + rewrite category_rows_sorted, orEmpty_map_nil.
      pose proof (sort_by_perm (before (fst o) (snd o))
                    (filter (listed db name v) (product db))) as Hp.
      destruct (sort_by _ _) as [|q rows'] eqn:E.
      * apply Permutation_nil in Hp.
        split; [split; [discriminate | intros H; discriminate]|].
        split; [split; [discriminate | intros [_ H]; discriminate]|].
        split; [intros _ | reflexivity].
        split; [eauto|]. split; [intros H; discriminate|].
        intros p Hin. destruct (listed db name v p) eqn:El; [|reflexivity].
        assert (Hf : In p (filter (listed db name v) (product db)))
          by (apply filter_In; auto).
        rewrite Hp in Hf. destruct Hf.
      * split; [split; [discriminate | intros H; discriminate]|].
        split; [split; [discriminate | intros [_ H]; discriminate]|].
        split; [discriminate|]. intros [_ [_ H]].
        assert (Hq : In q (filter (listed db name v) (product db))).
        { eapply Permutation_in; [exact Hp | left; reflexivity]. }
        apply filter_In in Hq. destruct Hq as [Hin Hl].
        rewrite (H q Hin) in Hl. discriminate.
    + split; [split; [discriminate | intros H; discriminate]|].
      split; [split; [eauto | reflexivity]|].
      split; [discriminate|]. intros [_ [H _]]. elim H. reflexivity.
  - split; [split; reflexivity|].
    split; [split; [discriminate | intros [[c H] _]; discriminate]|].
    split; [discriminate | intros [[c H] _]; discriminate].
Qed.

(** ** The top-10 listing: which rows, how many *)

Lemma sorted_app_before {A} (R : A -> A -> Prop) l1 l2 a b :
  StronglySorted R (l1 ++ l2) -> In a l1 -> In b l2 -> R a b.
Proof.
  induction l1 as [|x l1 IH]; simpl; intros Hs Ha Hb; [contradiction|].
  inversion Hs as [|? ? Hs' Hx]; subst.
  destruct Ha as [->|Ha]; [|auto].
  rewrite Forall_forall in Hx. apply Hx. apply in_or_app. now right.
Qed.

Lemma top10_rows db :
  findManyRows db top10Args =
  firstn 10 (sort_by (before By_discountRate desc) (filter qualifies (product db))).
Proof.
  unfold findManyRows, top10Args, applyTake, applyOrderBy.
  cbn [take orderBy where_]. do 2 f_equal.
  apply filter_ext. intros p. apply top10Where_qualifies.
Qed.

Lemma top10_run db userId :
  outcome (getTop10Products userId db) =
  orEmpty (map (selectListItem db) (findManyRows db top10Args)).
Proof.
  unfold getTop10Products, bind, product_findMany, orEmpty. simpl.
  fold top10Args.
  destruct (List.length _ =? 0)%nat; reflexivity.
Qed.

Lemma qualifies_has_rate p : qualifies p = true -> exists d, discountRate p = Some d.
Proof.
  unfold qualifies. destruct (discountRate p); [eauto | discriminate].
Qed.

(** X10. The top-10 listing takes the best: a row of the table that qualifies (in
    stock, discount rate neither null nor 0) is either returned or has a
    discount rate no greater than that of every returned item. *)
Theorem top10_takes_the_best db userId ps p :
  outcome (getTop10Products userId db) = Returns ps ->
  In p (product db) -> qualifies p = true ->
  In (selectListItem db p) ps
  \/ Forall (fun i => rateDescending i (selectListItem db p)) ps.
Proof.
  rewrite top10_run, top10_rows. intros H Hin Hq.
  apply orEmpty_Returns in H. destruct H as [-> _].
  set (all := sort_by (before By_discountRate desc) (filter qualifies (product db))).
  assert (Hp : In p all) by (apply sort_by_In, filter_In; auto).
  assert (Hs : StronglySorted (fun a b => before By_discountRate desc a b = true)
                 (firstn 10 all ++ skipn 10 all)).
  { rewrite firstn_skipn. apply sort_by_sorted;
      [apply before_total | apply before_trans]. }
  rewrite <- (firstn_skipn 10 all) in Hp. apply in_app_or in Hp.
  destruct Hp as [Hp|Hp]; [left; now apply in_map|].
  right. apply Forall_forall. intros i Hi.
  apply in_map_iff in Hi. destruct Hi as [a [<- Ha]].
  assert (Ha' : In a all).
  { rewrite <- (firstn_skipn 10 all). apply in_or_app. now left. }
  apply sort_by_In, filter_In in Ha'. destruct Ha' as [_ Hqa].
  apply (before_itemBefore db By_discountRate desc a p).
  - now apply qualifies_has_rate.
  - now apply qualifies_has_rate.
  - exact (sorted_app_before _ _ _ a p Hs Ha Hp).
Qed.

Lemma top10_takes_the_best_witness :
  In (selectListItem ratesStore (mkProduct 1 false 100 (Some 20)))
     [selectListItem ratesStore (mkProduct 1 false 100 (Some 20))]
  \/ Forall (fun i => rateDescending i
                        (selectListItem ratesStore (mkProduct 1 false 100 (Some 20))))
       [selectListItem ratesStore (mkProduct 1 false 100 (Some 20))].
Proof.
  apply (top10_takes_the_best ratesStore None).
  - reflexivity.
  - left. reflexivity.
  - reflexivity.
Defined.

(** X11. [getTop10Products] throws NotFoundProduct exactly when no row of the table
    qualifies; otherwise it returns as many items as rows qualify, up to 10. *)
Theorem top10_count db userId :
  (outcome (getTop10Products userId db) = Throws NotFoundProductException
   <-> forall p, In p (product db) -> qualifies p = false)
  /\ (forall ps, outcome (getTop10Products userId db) = Returns ps ->
        List.length ps = Nat.min 10 (List.length (filter qualifies (product db)))).
Proof.
  rewrite top10_run, top10_rows.
  pose proof (sort_by_perm (before By_discountRate desc)
                (filter qualifies (product db))) as Hp.
  split.
  - rewrite orEmpty_map_nil.
    destruct (sort_by _ _) as [|q rows] eqn:E.
    + apply Permutation_nil in Hp. split; [|reflexivity].
      intros _ p Hin. destruct (qualifies p) eqn:Eq; [|reflexivity].
      assert (Hf : In p (filter qualifies (product db))) by (apply filter_In; auto).
      rewrite Hp in Hf. destruct Hf.
    + simpl. split; [discriminate|]. intros H.
      assert (Hq : In q (filter qualifies (product db))).
      { eapply Permutation_in; [exact Hp | left; reflexivity]. }
      apply filter_In in Hq. destruct Hq as [Hin Hq].
      rewrite (H q Hin) in Hq. discriminate.
  - intros ps H. apply orEmpty_Returns in H. destruct H as [-> _].
    rewrite length_map, length_firstn.
    now rewrite (Permutation_length Hp).
Qed.

Lemma top10_count_witness :
  List.length [selectListItem ratesStore (mkProduct 1 false 100 (Some 20))] =
  Nat.min 10 (List.length (filter qualifies (product ratesStore))).
Proof.
  apply (proj2 (top10_count ratesStore None)). reflexivity.
Defined.

(** ** Detail and listing agree *)

(** X12. What [getProductDetail] returns for an identifier is also listed by
    [getAllProducts] when its argument is not [false]: an item with that
    identifier and the same name, image, prices, discount rate, stock flag and
    categories. *)
Theorem detail_is_listed db id userId userId' v d :
  v <> JBoolean false ->
  outcome (getProductDetail id userId db) = Returns d ->
  exists ps i,
    outcome (getAllProducts userId' v db) = Returns ps /\ In i ps
    /\ ListItem.productId i = id
    /\ ListItem.productName i = DetailItem.productName d
    /\ ListItem.productImage i = DetailItem.productImage d
    /\ ListItem.originalPrice i = DetailItem.originalPrice d
    /\ ListItem.currentPrice i = DetailItem.currentPrice d
    /\ ListItem.discountRate i = DetailItem.discountRate d
    /\ ListItem.isOutOfStock i = DetailItem.isOutOfStock d
    /\ ListItem.ProductCategory i = DetailItem.ProductCategory d.
Proof.
  intros Hv Hd.
  destruct (getProductDetail_by_identifier db id userId) as [_ [_ H]].
  destruct (H d Hd) as [Hid [p [Hin ->]]]. simpl in Hid.
  assert (Hs : strict_eq_false v = false).
  { destruct (strict_eq_false v) eqn:E; [|reflexivity].
    apply strict_eq_false_iff in E. contradiction. }
  exists (map (selectListItem db) (product db)), (selectListItem db p).
  rewrite getAllProducts_exact, Hs.
  split; [reflexivity|]. split; [now apply in_map|].
  simpl. repeat split. exact Hid.
Qed.

Lemma detail_is_listed_witness :
  exists ps i,
    outcome (getAllProducts None JUndefined shoesStore) = Returns ps /\ In i ps
    /\ ListItem.productId i = 2
    /\ ListItem.productName i = ""
    /\ ListItem.productImage i = ""
    /\ ListItem.originalPrice i = 200
    /\ ListItem.currentPrice i = 200
    /\ ListItem.discountRate i = None
    /\ ListItem.isOutOfStock i = false
    /\ ListItem.ProductCategory i = [{| ref_categoryId := 1; ref_categoryName := "shoes" |}].
Proof.
  apply (detail_is_listed shoesStore 2 None None JUndefined
           (selectDetailItem shoesStore (mkProduct 2 false 200 None))).
  - discriminate.
  - reflexivity.
Defined.

(** ** The cursor coercion: signs and white space *)

Lemma unsignedDecimal_digits negative s n :
  s <> EmptyString -> decimalValue 0 s = Some n ->
  unsignedDecimal negative s = ofDecimal negative n 0.
Proof.
  intros Hne Hv. destruct s as [|c t]; [congruence|].
  pose proof Hv as Hv'. simpl in Hv'.
  destruct (digitOf 10 c) as [d|] eqn:Ed; [|discriminate].
  unfold unsignedDecimal.
  assert (Hi : String.eqb (String c t) "Infinity" = false).
  { simpl. now rewrite (digit_not c d _ Ed) by reflexivity. }
  rewrite Hi, (readDigits_decimalValue _ _ 0 _ Hv).
  cbn [readExponent].
  assert (Hc : (0 + Z.of_nat (String.length (String c t)) =? 0) = false)
    by (apply Z.eqb_neq; simpl String.length; lia).
  rewrite Hc. reflexivity.
Qed.

Lemma roundToDouble_sign n d :
  roundToDouble true n d =
  match roundToDouble false n d with
  | Finite m e => Finite (- m) e
  | Infinity _ => Infinity true
  | NaN => NaN
  end.
Proof.
  unfold roundToDouble.
  repeat match goal with
         | |- context [if ?b then _ else _] => destruct b
         end; try reflexivity;
    destruct (normalize _ _); reflexivity.
Qed.

(** X13. A minus sign before an integer string is honoured: for a string of decimal
    digits whose value [n] lies between 1 and 2^53 - 1, the controller passes
    the negative integer [-n] downstream as the cursor. *)
Theorem lastId_negative_integer s n :
  s <> EmptyString -> decimalValue 0 s = Some n -> 0 < n < 2 ^ 53 ->
  exists m e, ProductController.lastId (Some (String "-" s)) = Some (Finite m e)
              /\ 0 <= e /\ m * 2 ^ e = - n.
Proof.
  intros Hne Hv Hn.
  assert (Hnum : Number (Some (String "-" s)) =
                 let '(m, e) := normalize n 0 in Finite (- m) e).
  { simpl Number. unfold StringToNumber.
    assert (Ht : trimEnd (trimStart (String "-" s)) = String "-" s).
    { change (trimStart (String "-" s)) with (String "-" s).
      simpl trimEnd. rewrite (trimEnd_digits _ _ _ Hv).
      destruct s; [congruence | reflexivity]. }
    rewrite Ht.
    change (Ascii.eqb "-" "+") with false. change (Ascii.eqb "-" "-") with true.
    cbv iota.
    rewrite (unsignedDecimal_digits true s n Hne Hv).
    unfold ofDecimal. destruct (Z.eqb_spec n 0); [lia|].
    simpl (0 <=? 0). cbv iota. rewrite Z.pow_0_r, Z.mul_1_r.
    rewrite roundToDouble_sign, (roundToDouble_integer n Hn).
    destruct (normalize n 0). reflexivity. }
  unfold ProductController.lastId. rewrite Hnum.
  destruct (normalize n 0) as [m e] eqn:E.
  apply normalize_integer in E; [|lia]. destruct E as [He [Hm Hm0]].
  exists (- m), e.
  assert (Ht : truthy (Finite (- m) e) = true)
    by (destruct m; [congruence | reflexivity | reflexivity]).
  rewrite Ht. repeat split; [exact He | lia].
Qed.

Lemma lastId_negative_integer_witness :
  exists m e, ProductController.lastId (Some "-5") = Some (Finite m e)
              /\ 0 <= e /\ m * 2 ^ e = - 5.
Proof.
  apply (lastId_negative_integer "5" 5).
  - discriminate.
  - reflexivity.
  - split; reflexivity.
Defined.

Lemma trimStart_white w s : allWhiteSpace w = true -> trimStart (w ++ s) = trimStart s.
Proof.
  induction w as [|c w IH]; simpl; intros H; [reflexivity|].
  apply andb_true_iff in H. destruct H as [Hc Hw].
  rewrite Hc. auto.
Qed.

Lemma trimStart_all_white w : allWhiteSpace w = true -> trimStart w = EmptyString.
Proof.
  induction w as [|c w IH]; simpl; intros H; [reflexivity|].
  apply andb_true_iff in H. destruct H as [Hc Hw].
  rewrite Hc. auto.
Qed.

Lemma trimEnd_all_white w : allWhiteSpace w = true -> trimEnd w = EmptyString.
Proof.
  induction w as [|c w IH]; simpl; intros H; [reflexivity|].
  apply andb_true_iff in H. destruct H as [Hc Hw].
  rewrite (IH Hw), Hc. reflexivity.
Qed.

Lemma trimEnd_white s w : allWhiteSpace w = true -> trimEnd (s ++ w) = trimEnd s.
Proof.
  intros Hw. induction s as [|c s IH]; simpl.
  - now apply trimEnd_all_white.
  - now rewrite IH.
Qed.

Lemma trim_white s w :
  allWhiteSpace w = true -> trimEnd (trimStart (s ++ w)) = trimEnd (trimStart s).
Proof.
  intros Hw. induction s as [|c s IH]; simpl.
  - now rewrite (trimStart_all_white w Hw).
  - destruct (isStrWhiteSpaceChar c); [exact IH|].
    change (String c (s ++ w)) with (String c s ++ w).
    now apply trimEnd_white.
Qed.

(** X14. White space around the cursor string is ignored: the controller passes the
    same cursor for a string and for that string with white space before and
    after it; a string of white space alone gives [null]. *)
Theorem lastId_ignores_white_space w1 w2 s :
  allWhiteSpace w1 = true -> allWhiteSpace w2 = true ->
  ProductController.lastId (Some (w1 ++ s ++ w2)) = ProductController.lastId (Some s)
  /\ ProductController.lastId (Some w1) = None.
Proof.
  intros H1 H2. unfold ProductController.lastId. simpl Number.
  unfold StringToNumber.
  rewrite (trimStart_white w1 (s ++ w2) H1).
  replace (trimEnd (trimStart (s ++ w2))) with (trimEnd (trimStart s))
    by (symmetry; now apply trim_white).
  split; [reflexivity|].
  replace w1 with (EmptyString ++ w1) by reflexivity.
  rewrite (trim_white EmptyString w1 H1). reflexivity.
Qed.

Lemma lastId_ignores_white_space_witness :
  ProductController.lastId (Some (" " ++ "42" ++ "  ")) =
    ProductController.lastId (Some "42")
  /\ ProductController.lastId (Some " ") = None.
Proof.
  apply (lastId_ignores_white_space " " "  " "42"); reflexivity.
Defined.
